(** * Shift bookkeeping bot: store backends, profit calculator, profit reply

    A shallow embedding of the three Python modules of the repository:

    - [sheet.py]    the spreadsheet backend together with the profit
                    calculator ([_calculate_hours], [_calculate_profit]);
    - [database.py] the SQLite backend;
    - [main.py]     the conversation handlers (input cleaning and the
                    profit reply).

    Conventions of the embedding.

    - The amounts that the stores hold and the calculator works with are
      exact rationals ([Q]); the specification speaks of decimals
      throughout.  Rounding to binary floating point and overflow are
      therefore not part of the model.  Python's [float] also returns the
      infinities and NaN, for the words [inf], [infinity] and [nan]: they
      are values of [Py.pyfloat], on which the profit reply is embedded.
      The tables of the SQLite backend hold finite amounts only, and a
      statement about [update_value] on an arbitrary value says that the
      value is none of these words.
    - Strings are byte strings ([string]): the UTF-8 encoding of the text.
      White space is that of [str.isspace], in this encoding.  [float] and
      [strptime] are embedded on ASCII text: both also read the digits of
      other scripts, which the embedding takes for no digits.  A statement
      about a value that [float] rejects therefore says that the value is
      ASCII text.
    - Every store operation is embedded on the path where the storage layer
      itself answers (no connectivity failure); a Python exception raised on
      that path is embedded as the value its [except] clause returns.
    - SQL [NULL] and Python [None] are [None]; [CURRENT_TIMESTAMP] is an
      explicit argument [now]. *)

From Stdlib Require Import String Ascii List ZArith QArith Qabs Bool Lia Lqa.
From Stdlib Require Import Sorting.Sorted Sorting.Permutation.
Import ListNotations.

Local Open Scope string_scope.
Local Open Scope Z_scope.

(* ================================================================== *)
(** * Python built-ins used by the modules *)
(* ================================================================== *)

Module Py.

(** A dynamically typed value, as far as the store code passes them around:
    [None], a [str], or a number. *)
Inductive pyval : Type :=
| PyNone
| PyStr (s : string)
| PyNum (q : Q).

(** Truth value testing: [None], the empty string and zero are false. *)
Definition truthy (v : pyval) : bool :=
  match v with
  | PyNone => false
  | PyStr s => negb (String.eqb s "")
  | PyNum q => negb (Qeq_bool q 0)
  end.

Definition is_digit (c : ascii) : bool :=
  let n := Z.of_nat (nat_of_ascii c) in (48 <=? n) && (n <=? 57).

Definition digit_val (c : ascii) : Z := Z.of_nat (nat_of_ascii c) - 48.

Definition in_range (lo hi : Z) (c : ascii) : bool :=
  let n := Z.of_nat (nat_of_ascii c) in (lo <=? n) && (n <=? hi).

(** The characters for which [str.isspace] holds, the white space of
    [str.strip] and [str.split]: U+0009..U+000D, U+001C..U+0020, U+0085,
    U+00A0, U+1680, U+2000..U+200A, U+2028, U+2029, U+202F, U+205F and
    U+3000.  In UTF-8 the first ten are one byte each, U+0085 and U+00A0 are
    [C2 85] and [C2 A0], and the others are three bytes led by [E1], [E2] or
    [E3].  [is_space] holds of the ones of one byte. *)
Definition is_space (c : ascii) : bool :=
  in_range 9 13 c || in_range 28 32 c.

(** A byte that continues a character begun by an earlier byte. *)
Definition continuation (c : ascii) : bool := in_range 128 191 c.

Definition two_byte_space (a b : ascii) : bool :=
  in_range 194 194 a && (in_range 133 133 b || in_range 160 160 b).

Definition three_byte_space (a b c : ascii) : bool :=
  (in_range 225 225 a && in_range 154 154 b && in_range 128 128 c)
  || (in_range 226 226 a && in_range 128 128 b
      && (in_range 128 138 c || in_range 168 169 c || in_range 175 175 c))
  || (in_range 226 226 a && in_range 129 129 b && in_range 159 159 c)
  || (in_range 227 227 a && in_range 128 128 b && in_range 128 128 c).

(** The number of bytes of the white-space character that [s] begins with;
    0 when [s] begins with another character or is empty. *)
Definition space_width (s : string) : nat :=
  match s with
  | String a r =>
      if is_space a then 1%nat
      else
        match r with
        | String b r' =>
            if two_byte_space a b then 2%nat
            else
              match r' with
              | String c _ => if three_byte_space a b c then 3%nat else 0%nat
              | EmptyString => 0%nat
              end
        | EmptyString => 0%nat
        end
  | EmptyString => 0%nat
  end.

(** [s.lstrip()], after the [skip] bytes that are left of a white-space
    character already begun. *)
Fixpoint lstrip_from (skip : nat) (s : string) {struct s} : string :=
  match s with
  | String _ r =>
      match skip with
      | S k => lstrip_from k r
      | O =>
          match space_width s with
          | S k => lstrip_from k r
          | O => s
          end
      end
  | EmptyString => s
  end.

Definition lstrip (s : string) : string := lstrip_from 0 s.

(** [s.rstrip()]: the text is cut where nothing but white space follows. *)
Fixpoint rstrip (s : string) : string :=
  match s with
  | String c r =>
      if String.eqb (lstrip s) "" then EmptyString else String c (rstrip r)
  | EmptyString => EmptyString
  end.

(** [s.strip()] *)
Definition strip (s : string) : string := rstrip (lstrip s).

(** The run of [s] from its head to the first white-space character. *)
Fixpoint take_token (s : string) : string :=
  match s with
  | String c r =>
      match space_width s with
      | O => String c (take_token r)
      | S _ => EmptyString
      end
  | EmptyString => EmptyString
  end.

(** No white-space character begins anywhere in [s]. *)
Fixpoint spaceless (s : string) : bool :=
  match s with
  | String _ r => Nat.eqb (space_width s) 0%nat && spaceless r
  | EmptyString => true
  end.

(** [s.isascii()] *)
Fixpoint is_ascii (s : string) : bool :=
  match s with
  | String c r => in_range 0 127 c && is_ascii r
  | EmptyString => true
  end.

(** [s.replace(',', '.')] *)
Fixpoint replace_comma (s : string) : string :=
  match s with
  | String c r =>
      String (if Ascii.eqb c "," then "."%char else c) (replace_comma r)
  | EmptyString => EmptyString
  end.

(** [s.lower()] on ASCII letters and on the Cyrillic capitals U+0400..U+042F
    (two-byte UTF-8 sequences led by 0xD0); every other byte is kept.  The
    modules compare the result with words of these two alphabets, whose
    letters are the lower case of no other character. *)
Fixpoint lower (s : string) : string :=
  match s with
  | EmptyString => EmptyString
  | String c r =>
      let n := Z.of_nat (nat_of_ascii c) in
      if (65 <=? n) && (n <=? 90) then
        String (ascii_of_nat (Z.to_nat (n + 32))) (lower r)
      else if n =? 208 then
        match r with
        | String b r' =>
            let k := Z.of_nat (nat_of_ascii b) in
            if (128 <=? k) && (k <=? 143) then
              String (ascii_of_nat 209)
                (String (ascii_of_nat (Z.to_nat (k + 16))) (lower r'))
            else if (144 <=? k) && (k <=? 159) then
              String c (String (ascii_of_nat (Z.to_nat (k + 32))) (lower r'))
            else if (160 <=? k) && (k <=? 175) then
              String (ascii_of_nat 209)
                (String (ascii_of_nat (Z.to_nat (k - 32))) (lower r'))
            else String c (String b (lower r'))
        | EmptyString => String c EmptyString
        end
      else String c (lower r)
  end.

(** ** [float(s)] on ASCII text

    [float] takes the white space off both ends of the text and reads
    [[sign] (digitpart ["." [digitpart]] | "." digitpart) [exponent]] with
    [digitpart ::= digit (["_"] digit)*] and
    [exponent ::= ("e"|"E") [sign] digitpart], or one of the words [inf],
    [infinity] and [nan] after an optional sign, in any case of the letters.
    In an ASCII text the white space taken off is the tab, the line feed,
    the vertical tab, the form feed, the carriage return and the space.  A
    text with a character outside ASCII may convert as well ([float] knows
    the decimal digits and the white space of every script); the embedding
    says nothing about such a text. *)

Definition is_float_space (c : ascii) : bool :=
  in_range 9 13 c || in_range 32 32 c.

Fixpoint float_lstrip (s : string) : string :=
  match s with
  | String c r => if is_float_space c then float_lstrip r else s
  | EmptyString => s
  end.

Fixpoint float_rstrip (s : string) : string :=
  match s with
  | String c r =>
      match float_rstrip r with
      | EmptyString =>
          if is_float_space c then EmptyString else String c EmptyString
      | r' => String c r'
      end
  | EmptyString => EmptyString
  end.

Definition float_strip (s : string) : string := float_rstrip (float_lstrip s).

(** The rest of a digit part: [acc] is the value read so far, [n] the number
    of digits read. *)
Fixpoint digits_tail (s : string) (acc : Z) (n : Z) : Z * Z * string :=
  match s with
  | String c r =>
      if is_digit c then digits_tail r (10 * acc + digit_val c) (n + 1)
      else if Ascii.eqb c "_" then
        match r with
        | String c' r' =>
            if is_digit c'
            then digits_tail r' (10 * acc + digit_val c') (n + 1)
            else (acc, n, s)
        | EmptyString => (acc, n, s)
        end
      else (acc, n, s)
  | EmptyString => (acc, n, s)
  end.

(** A digit part continuing the value [acc]: new value, number of digits
    read, rest of the input; [None] when no digit is there. *)
Definition digitpart (s : string) (acc : Z) : option (Z * Z * string) :=
  match s with
  | String c r =>
      if is_digit c then Some (digits_tail r (10 * acc + digit_val c) 1)
      else None
  | EmptyString => None
  end.

Definition read_sign (s : string) : bool * string :=
  match s with
  | String "-" r => (true, r)
  | String "+" r => (false, r)
  | _ => (false, s)
  end.

(** Mantissa: value of all digits read as one integer, number of digits
    after the point, rest. *)
Definition mantissa (s : string) : option (Z * Z * string) :=
  match digitpart s 0 with
  | Some (i, _, String "." r) =>
      match digitpart r i with
      | Some (m, k, r') => Some (m, k, r')
      | None => Some (i, 0, r)
      end
  | Some (i, _, r) => Some (i, 0, r)
  | None =>
      match s with
      | String "." r => digitpart r 0
      | _ => None
      end
  end.

(** Exponent: its value and the rest; [None] when an exponent marker is not
    followed by a well-formed exponent. *)
Definition exponent (s : string) : option (Z * string) :=
  match s with
  | String c r =>
      if Ascii.eqb c "e" || Ascii.eqb c "E" then
        let '(neg, r1) := read_sign r in
        match digitpart r1 0 with
        | Some (e, _, r2) => Some (if neg then - e else e, r2)
        | None => None
        end
      else Some (0, s)
  | EmptyString => Some (0, s)
  end.

(** [m * 10^e] as a rational. *)
Definition scale10 (m e : Z) : Q :=
  if 0 <=? e then inject_Z (m * 10 ^ e)
  else Qmake m (Z.to_pos (10 ^ (- e))).

(** The decimal that [float(s)] returns; [None] when [s] is no decimal
    literal.  The value is exact: neither the rounding to a binary fraction
    nor the overflow of a large exponent is part of the embedding. *)
Definition float (s : string) : option Q :=
  let '(neg, r) := read_sign (float_strip s) in
  match mantissa r with
  | Some (m, k, r1) =>
      match exponent r1 with
      | Some (e, EmptyString) =>
          Some (scale10 (if neg then - m else m) (e - k))
      | _ => None
      end
  | None => None
  end.

(** A Python [float]: a number, an infinity or NaN. *)
Inductive pyfloat : Type :=
| Finite (q : Q)
| PosInf
| NegInf
| NaN.

(** The value that [float(s)] returns for one of the words. *)
Definition nonfinite (s : string) : option pyfloat :=
  let '(neg, r) := read_sign (float_strip s) in
  let w := lower r in
  if String.eqb w "inf" || String.eqb w "infinity"
  then Some (if neg then NegInf else PosInf)
  else if String.eqb w "nan" then Some NaN
  else None.

Definition names_nonfinite (s : string) : bool :=
  match nonfinite s with
  | Some _ => true
  | None => false
  end.

(** [float(s)] with all its results, for an ASCII text [s]; [None] stands
    for [ValueError]. *)
Definition float_value (s : string) : option pyfloat :=
  match float s with
  | Some q => Some (Finite q)
  | None => nonfinite s
  end.

(** [float(s)] raises [ValueError], as far as the embedding knows: [s] is
    ASCII text and neither a decimal literal nor one of the words. *)
Definition float_raises (s : string) : bool :=
  is_ascii s &&
  match float s with
  | Some _ => false
  | None => negb (names_nonfinite s)
  end.

(** [x < y] on numbers. *)
Definition Qltb (x y : Q) : bool := negb (Qle_bool y x).

(** [x < y], [x <= y] and [x + y] on floats.  A comparison with NaN is
    false; the sum of the two infinities is NaN. *)
Definition float_ltb (x y : pyfloat) : bool :=
  match x, y with
  | Finite a, Finite b => Qltb a b
  | Finite _, PosInf | NegInf, Finite _ | NegInf, PosInf => true
  | _, _ => false
  end.

Definition float_leb (x y : pyfloat) : bool :=
  match x, y with
  | Finite a, Finite b => Qle_bool a b
  | Finite _, PosInf | NegInf, Finite _ | NegInf, PosInf
  | PosInf, PosInf | NegInf, NegInf => true
  | _, _ => false
  end.

Definition float_add (x y : pyfloat) : pyfloat :=
  match x, y with
  | Finite a, Finite b => Finite (a + b)%Q
  | NaN, _ | _, NaN | PosInf, NegInf | NegInf, PosInf => NaN
  | PosInf, _ | _, PosInf => PosInf
  | NegInf, _ | _, NegInf => NegInf
  end.


(** [float(str(v).replace(',', '.'))]; for a number [str] followed by
    [float] gives the number back. *)
Definition float_of_pyval (v : pyval) : option Q :=
  match v with
  | PyNone => None
  | PyStr s => float (replace_comma s)
  | PyNum q => Some q
  end.

(** ** [datetime.strptime(s, "%H:%M")]

    The format compiles to the regular expression
    [(2[0-3]|[0-1]\d|\d):([0-5]\d|\d)], which has to match the whole of
    [s]. *)

Record time_of_day : Type := { hour : Z; minute : Z }.

Definition read_hour (s : string) : option (Z * string) :=
  match s with
  | String a (String b r) =>
      if (Ascii.eqb a "2" && in_range 48 51 b)
         || (in_range 48 49 a && is_digit b)
      then Some (10 * digit_val a + digit_val b, r)
      else if is_digit a then Some (digit_val a, String b r)
      else None
  | String a r => if is_digit a then Some (digit_val a, r) else None
  | EmptyString => None
  end.

Definition read_minute (s : string) : option (Z * string) :=
  match s with
  | String a (String b r) =>
      if in_range 48 53 a && is_digit b
      then Some (10 * digit_val a + digit_val b, r)
      else if is_digit a then Some (digit_val a, String b r)
      else None
  | String a r => if is_digit a then Some (digit_val a, r) else None
  | EmptyString => None
  end.

Definition strptime_HM (s : string) : option time_of_day :=
  match read_hour s with
  | Some (h, String ":" r) =>
      match read_minute r with
      | Some (m, EmptyString) => Some {| hour := h; minute := m |}
      | _ => None
      end
  | _ => None
  end.

(** Seconds since midnight; the date part of the parsed [datetime] is the
    same (1900-01-01) for every string. *)
Definition seconds_of (t : time_of_day) : Z := hour t * 3600 + minute t * 60.

(** ** [datetime.strptime(s, "%d.%m.%Y").date()]

    Regular expression
    [(3[0-1]|[1-2]\d|0[1-9]|[1-9]| [1-9])\.(1[0-2]|0[1-9]|[1-9])\.(\d\d\d\d)],
    then the calendar check of the [datetime] constructor. *)

Record date : Type := { year : Z; month : Z; day : Z }.

Definition read_day (s : string) : option (Z * string) :=
  match s with
  | String a (String b r) =>
      if (Ascii.eqb a "3" && in_range 48 49 b)
         || (in_range 49 50 a && is_digit b)
         || (Ascii.eqb a "0" && in_range 49 57 b)
      then Some (10 * digit_val a + digit_val b, r)
      else if in_range 49 57 a then Some (digit_val a, String b r)
      else if Ascii.eqb a " " && in_range 49 57 b then Some (digit_val b, r)
      else None
  | String a r => if in_range 49 57 a then Some (digit_val a, r) else None
  | EmptyString => None
  end.

Definition read_month (s : string) : option (Z * string) :=
  match s with
  | String a (String b r) =>
      if (Ascii.eqb a "1" && in_range 48 50 b)
         || (Ascii.eqb a "0" && in_range 49 57 b)
      then Some (10 * digit_val a + digit_val b, r)
      else if in_range 49 57 a then Some (digit_val a, String b r)
      else None
  | String a r => if in_range 49 57 a then Some (digit_val a, r) else None
  | EmptyString => None
  end.

Definition read_year (s : string) : option (Z * string) :=
  match s with
  | String a (String b (String c (String d r))) =>
      if is_digit a && is_digit b && is_digit c && is_digit d
      then Some (1000 * digit_val a + 100 * digit_val b
                 + 10 * digit_val c + digit_val d, r)
      else None
  | _ => None
  end.

Definition is_leap (y : Z) : bool :=
  ((y mod 4 =? 0) && negb (y mod 100 =? 0)) || (y mod 400 =? 0).

Definition days_in_month (y m : Z) : Z :=
  if m =? 2 then (if is_leap y then 29 else 28)
  else if (m =? 4) || (m =? 6) || (m =? 9) || (m =? 11) then 30
  else 31.

Definition strptime_dmY (s : string) : option date :=
  match read_day s with
  | Some (d, String "." r) =>
      match read_month r with
      | Some (m, String "." r1) =>
          match read_year r1 with
          | Some (y, EmptyString) =>
              if (1 <=? y) && (d <=? days_in_month y m)
              then Some {| year := y; month := m; day := d |}
              else None
          | _ => None
          end
      | _ => None
      end
  | _ => None
  end.

Definition digit_char (n : Z) : ascii := ascii_of_nat (Z.to_nat (48 + n mod 10)).

Definition two_digits (n : Z) : string :=
  String (digit_char (n / 10)) (String (digit_char n) EmptyString).

Definition four_digits (n : Z) : string :=
  String (digit_char (n / 1000)) (String (digit_char (n / 100))
    (String (digit_char (n / 10)) (String (digit_char n) EmptyString))).

(** [d.strftime("%d.%m.%Y")], the year written with four digits. *)
Definition strftime_dmY (d : date) : string :=
  two_digits (day d) ++ "." ++ two_digits (month d) ++ "." ++ four_digits (year d).

(** [a > b] on dates. *)
Definition date_gtb (a b : date) : bool :=
  (year b <? year a)
  || ((year b =? year a)
      && ((month b <? month a)
          || ((month b =? month a) && (day b <? day a)))).

(** [d.get(key)] *)
Fixpoint dict_get {A : Type} (d : list (string * A)) (key : string)
  : option A :=
  match d with
  | [] => None
  | (k, v) :: d' => if String.eqb k key then Some v else dict_get d' key
  end.

End Py.

(* ================================================================== *)
(** * sheet.py: profit calculator and spreadsheet backend *)
(* ================================================================== *)

Module Sheets.
Import Py.
Local Open Scope Q_scope.

(** The argument of [datetime.strptime(_, "%H:%M")]: anything but a string
    raises, like a string of another shape. *)
Definition parse_time (v : pyval) : option time_of_day :=
  match v with
  | PyStr s => strptime_HM s
  | _ => None
  end.

(** [(end - start).total_seconds()] after the overnight adjustment
    [if end < start: end += timedelta(days=1)]. *)
Definition duration_seconds (start end_ : time_of_day) : Z :=
  let s := seconds_of start in
  let e := seconds_of end_ in
  let e' := if (e <? s)%Z then (e + 86400)%Z else e in
  (e' - s)%Z.

(** [GoogleSheetsManager._calculate_hours]; an exception yields [0]. *)
Definition _calculate_hours (start_time end_time : pyval) : Q :=
  match parse_time start_time with
  | Some start =>
      match parse_time end_time with
      | Some end_ => inject_Z (duration_seconds start end_) / 3600
      | None => 0
      end
  | None => 0
  end.

(** [float(str(x).replace(',', '.')) if x else 0] *)
Definition number_or_zero (x : pyval) : option Q :=
  if truthy x then float_of_pyval x else Some 0.

(** [GoogleSheetsManager._calculate_profit]; an exception yields [0]. *)
Definition _calculate_profit (start_time end_time revenue tips : pyval) : Q :=
  let hours := _calculate_hours start_time end_time in
  let hourly_rate := 220 in
  let revenue_percentage := 0.015 in
  match number_or_zero revenue with
  | Some revenue_val =>
      match number_or_zero tips with
      | Some tips_val =>
          (hours * hourly_rate) + tips_val + (revenue_val * revenue_percentage)
      | None => 0
      end
  | None => 0
  end.

(** A time of day in fractional hours since midnight. *)
Definition clock_hours (t : time_of_day) : Q :=
  inject_Z (hour t) + inject_Z (minute t) / 60.

(** [a < b] on times of day. *)
Definition earlier (a b : time_of_day) : Prop :=
  (hour a < hour b)%Z \/ (hour a = hour b /\ (minute a < minute b)%Z).

(** ** The worksheet

    A grid of cells, rows and columns counted from 1; a cell keeps what was
    written to it and an unwritten cell reads as [None]. *)

Definition grid : Type := list (list pyval).

Record manager : Type := { initialized : bool; worksheet : grid }.

(** [worksheet.cell(row, col).value] *)
Definition cell (g : grid) (row col : nat) : pyval :=
  nth (col - 1) (nth (row - 1) g []) PyNone.

Definition cell_is (query : string) (v : pyval) : bool :=
  match v with
  | PyStr s => String.eqb s query
  | _ => false
  end.

(** Position of the first element that satisfies [p], counted from 1. *)
Fixpoint index_of {A : Type} (p : A -> bool) (l : list A) : option nat :=
  match l with
  | [] => None
  | x :: r => if p x then Some 1%nat else option_map S (index_of p r)
  end.

(** [worksheet.find(query)]: the first matching cell, rows first;
    (row, column), or [None]. *)
Fixpoint find (g : grid) (query : string) : option (nat * nat) :=
  match g with
  | [] => None
  | r :: g' =>
      match index_of (cell_is query) r with
      | Some c => Some (1%nat, c)
      | None =>
          match find g' query with
          | Some (i, c) => Some (S i, c)
          | None => None
          end
      end
  end.

(** Overwrite the first elements of [l] with [vs]. *)
Fixpoint overwrite {A : Type} (vs : list A) (l : list A) : list A :=
  match vs with
  | [] => l
  | v :: vs' => v :: overwrite vs' (tl l)
  end.

(** Overwrite the elements of [l] from position [i] (counted from 0) with
    [vs], filling a gap with [d]. *)
Fixpoint write_at {A : Type} (d : A) (i : nat) (vs : list A) (l : list A)
  : list A :=
  match i with
  | O => overwrite vs l
  | S i' => hd d l :: write_at d i' vs (tl l)
  end.

(** [worksheet.update] of a range that lies in one row and starts at [col]. *)
Definition update (g : grid) (row col : nat) (vs : list pyval) : grid :=
  match row with
  | O => g
  | S i =>
      write_at [] i [write_at PyNone (col - 1) vs (nth i g [])] g
  end.

(** [worksheet.append_row] *)
Definition append_row (g : grid) (vs : list pyval) : grid := (g ++ [vs])%list.

(** [x.value if x.value else default] *)
Definition value_or (v : pyval) (default : string) : pyval :=
  if truthy v then v else PyStr default.

(** Both times must pass [datetime.strptime(_, "%H:%M")]. *)
Definition times_valid (start end_ : string) : bool :=
  match strptime_HM start, strptime_HM end_ with
  | Some _, Some _ => true
  | _, _ => false
  end.

(** [GoogleSheetsManager.add_shift] *)
Definition add_shift (m : manager) (date_msg start end_ : string)
  : bool * manager :=
  if negb (initialized m) then (false, m) else
  match strptime_dmY date_msg with
  | None => (false, m)
  | Some date_obj =>
      let formatted_date := strftime_dmY date_obj in
      if negb (times_valid start end_) then (false, m) else
      let g := worksheet m in
      match find g formatted_date with
      | Some (row, _) =>
          let g1 := update g row 2 [PyStr start; PyStr end_] in
          let revenue := value_or (cell g1 row 4) "0" in
          let tips := value_or (cell g1 row 5) "0" in
          let profit :=
            _calculate_profit (PyStr start) (PyStr end_) revenue tips in
          let g2 := update g1 row 7 [PyNum profit] in
          (true, {| initialized := true; worksheet := g2 |})
      | None =>
          let profit :=
            _calculate_profit (PyStr start) (PyStr end_) (PyNum 0) (PyNum 0) in
          let new_row :=
            [PyStr formatted_date; PyStr start; PyStr end_;
             PyStr ""; PyStr ""; PyNum profit] in
          (true, {| initialized := true; worksheet := append_row g new_row |})
      end
  end.

(** The dictionary [column_mapping] of [update_value], column letters as
    column numbers.  In the source its last two entries are malformed
    ([F] and [G] are written without quotes); they are read here as the
    columns the header row gives to the two labels. *)
Definition column_mapping : list (string * nat) :=
  [("начало", 2%nat); ("конец", 3%nat); ("выручка", 4%nat); ("чай", 5%nat);
   ("часы", 6%nat); ("Прибыль", 7%nat)].

(** [GoogleSheetsManager.update_value] *)
Definition update_value (m : manager) (date_msg field value : string)
  : bool * manager :=
  if negb (initialized m) then (false, m) else
  match strptime_dmY date_msg with
  | None => (false, m)
  | Some date_obj =>
      let formatted_date := strftime_dmY date_obj in
      let g := worksheet m in
      match find g formatted_date with
      | None => (false, m)
      | Some (row, _) =>
          match dict_get column_mapping (lower field) with
          | None => (false, m)
          | Some column =>
              let g1 := update g row column [PyStr value] in
              let start_time := value_or (cell g1 row 2) "00:00" in
              let end_time := value_or (cell g1 row 3) "00:00" in
              let revenue := value_or (cell g1 row 4) "0" in
              let tips := value_or (cell g1 row 5) "0" in
              let profit :=
                _calculate_profit start_time end_time revenue tips in
              let g2 := update g1 row 6 [PyNum profit] in
              (true, {| initialized := true; worksheet := g2 |})
          end
      end
  end.

(** [GoogleSheetsManager.get_profit]; the result is the number whose [str]
    the method returns.  The prefix [g] of the range in the source's
    [worksheet.update] call is read as [f].  The stored profit is converted
    by [float(existing_profit.replace(',', '.'))]: on a cell that holds a
    number [replace] raises, and the method returns [None]. *)
Definition get_profit (m : manager) (date_msg : string)
  : option Q * manager :=
  if negb (initialized m) then (None, m) else
  match strptime_dmY date_msg with
  | None => (None, m)
  | Some date_obj =>
      let formatted_date := strftime_dmY date_obj in
      let g := worksheet m in
      match find g formatted_date with
      | None => (None, m)
      | Some (row, _) =>
          let start_time := value_or (cell g row 2) "00:00" in
          let end_time := value_or (cell g row 3) "00:00" in
          let revenue := value_or (cell g row 4) "0" in
          let tips := value_or (cell g row 5) "0" in
          let existing_profit := value_or (cell g row 7) "0" in
          let profit :=
            _calculate_profit start_time end_time revenue tips in
          match existing_profit with
          | PyStr text =>
              match float (replace_comma text) with
              | None => (None, m)
              | Some existing =>
                  if Qle_bool (Qabs (existing - profit)) 0.01
                  then (Some profit, m)
                  else (Some profit,
                        {| initialized := true;
                           worksheet := update g row 7 [PyNum profit] |})
              end
          | _ => (None, m)
          end
      end
  end.

(** [GoogleSheetsManager.check_shift_exists] *)
Definition check_shift_exists (m : manager) (date_msg : string) : bool :=
  if negb (initialized m) then false else
  match strptime_dmY date_msg with
  | None => false
  | Some date_obj =>
      match find (worksheet m) (strftime_dmY date_obj) with
      | Some _ => true
      | None => false
      end
  end.

End Sheets.

(* ================================================================== *)
(** * database.py: SQLite backend *)
(* ================================================================== *)

Module Database.
Import Py.
Local Open Scope Q_scope.

(** A row of the table [shifts].  [revenue] and [tips] are [REAL DEFAULT 0]
    without [NOT NULL]. *)
Record shift_row : Type := {
  id : Z;
  date : string;
  start_time : string;
  end_time : string;
  revenue : option Q;
  tips : option Q;
  created_at : Z;
  updated_at : Z
}.

(** The table in row order, and the last [AUTOINCREMENT] key handed out. *)
Record database : Type := { shifts : list shift_row; last_id : Z }.

(** [_init_db] on a fresh file. *)
Definition empty : database := {| shifts := []; last_id := 0 |}.

(** [WHERE date = ?] *)
Definition date_is (date_msg : string) (r : shift_row) : bool :=
  String.eqb (date r) date_msg.

(** [DatabaseManager.add_shift].  [INSERT OR REPLACE] names the columns
    [date, start_time, end_time, updated_at]: a row that holds the same
    [UNIQUE] date is deleted, and the inserted row takes the column defaults
    for everything that is not named. *)
Definition add_shift (now : Z) (db : database) (date_msg start end_ : string)
  : bool * database :=
  let new_id := (last_id db + 1)%Z in
  let kept := filter (fun r => negb (date_is date_msg r)) (shifts db) in
  let inserted :=
    {| id := new_id; date := date_msg; start_time := start; end_time := end_;
       revenue := Some 0; tips := Some 0;
       created_at := now; updated_at := now |} in
  (true, {| shifts := (kept ++ [inserted])%list; last_id := new_id |}).

Inductive column : Type := start_time_col | end_time_col | revenue_col | tips_col.

(** The dictionary [field_mapping] of [update_value]. *)
Definition field_mapping : list (string * column) :=
  [("начало", start_time_col); ("конец", end_time_col);
   ("выручка", revenue_col); ("чай", tips_col)].

(** [db_field in ['revenue', 'tips']] *)
Definition is_numeric (c : column) : bool :=
  match c with
  | revenue_col | tips_col => true
  | _ => false
  end.

(** [SET {db_field} = ?, updated_at = CURRENT_TIMESTAMP] on one row; a
    numeric column takes the number, a text column the string. *)
Definition set_field (now : Z) (c : column) (text : string) (number : Q)
  (r : shift_row) : shift_row :=
  match c with
  | start_time_col =>
      {| id := id r; date := date r; start_time := text;
         end_time := end_time r; revenue := revenue r; tips := tips r;
         created_at := created_at r; updated_at := now |}
  | end_time_col =>
      {| id := id r; date := date r; start_time := start_time r;
         end_time := text; revenue := revenue r; tips := tips r;
         created_at := created_at r; updated_at := now |}
  | revenue_col =>
      {| id := id r; date := date r; start_time := start_time r;
         end_time := end_time r; revenue := Some number; tips := tips r;
         created_at := created_at r; updated_at := now |}
  | tips_col =>
      {| id := id r; date := date r; start_time := start_time r;
         end_time := end_time r; revenue := revenue r; tips := Some number;
         created_at := created_at r; updated_at := now |}
  end.

(** [UPDATE shifts ... WHERE date = ?]: the new table and [cursor.rowcount]. *)
Definition execute_update (f : shift_row -> shift_row) (date_msg : string)
  (rows : list shift_row) : list shift_row * nat :=
  (map (fun r => if date_is date_msg r then f r else r) rows,
   length (filter (date_is date_msg) rows)).

(** [DatabaseManager.update_value], for a [value] that [float] converts to
    a decimal or rejects (see the conventions for the other values). *)
Definition update_value (now : Z) (db : database)
  (date_msg field value : string) : bool * database :=
  match dict_get field_mapping (lower field) with
  | None => (false, db)
  | Some db_field =>
      let run (numeric_value : Q) :=
        let '(rows, rowcount) :=
          execute_update (set_field now db_field value numeric_value)
            date_msg (shifts db) in
        if Nat.eqb rowcount 0 then (false, db)
        else (true, {| shifts := rows; last_id := last_id db |}) in
      if is_numeric db_field then
        match float value with
        | None => (false, db)
        | Some numeric_value => run numeric_value
        end
      else run 0
  end.

(** [x or 0] on a nullable number. *)
Definition or_zero (x : option Q) : Q :=
  match x with
  | Some q => if Qeq_bool q 0 then 0 else q
  | None => 0
  end.

(** [cursor.fetchone()] of [SELECT ... WHERE date = ?] *)
Definition fetch_by_date (db : database) (date_msg : string)
  : option shift_row :=
  List.find (date_is date_msg) (shifts db).

(** [DatabaseManager.get_profit]; the result is the number whose [str] the
    method returns. *)
Definition get_profit (db : database) (date_msg : string) : option Q :=
  match fetch_by_date db date_msg with
  | None => None
  | Some r => Some (or_zero (revenue r) + or_zero (tips r))
  end.

(** [DatabaseManager.check_shift_exists] *)
Definition check_shift_exists (db : database) (date_msg : string) : bool :=
  match fetch_by_date db date_msg with
  | Some _ => true
  | None => false
  end.

(** [WHERE date BETWEEN ? AND ?] on the [TEXT] column: both comparisons are
    comparisons of strings, byte by byte. *)
Definition between (start_date end_date : string) (r : shift_row) : bool :=
  String.leb start_date (date r) && String.leb (date r) end_date.

(** [ORDER BY date], again on the text. *)
Fixpoint insert_by_date (r : shift_row) (l : list shift_row)
  : list shift_row :=
  match l with
  | [] => [r]
  | x :: l' =>
      if String.leb (date r) (date x) then r :: l
      else x :: insert_by_date r l'
  end.

Fixpoint order_by_date (l : list shift_row) : list shift_row :=
  match l with
  | [] => []
  | r :: l' => insert_by_date r (order_by_date l')
  end.

(** An element of the list [get_shifts_in_period] returns. *)
Record shift : Type := {
  shift_date : string;
  shift_start : string;
  shift_end : string;
  shift_revenue : Q;
  shift_tips : Q
}.

Definition shift_of_row (r : shift_row) : shift :=
  {| shift_date := date r; shift_start := start_time r;
     shift_end := end_time r;
     shift_revenue := or_zero (revenue r); shift_tips := or_zero (tips r) |}.

(** [DatabaseManager.get_shifts_in_period] *)
Definition get_shifts_in_period (db : database) (start_date end_date : string)
  : list shift :=
  map shift_of_row
    (order_by_date (filter (between start_date end_date) (shifts db))).

(** The values of a column that are not [NULL]. *)
Fixpoint present (l : list (option Q)) : list Q :=
  match l with
  | [] => []
  | Some q :: l' => q :: present l'
  | None :: l' => present l'
  end.

Fixpoint total (l : list Q) : Q :=
  match l with
  | [] => 0
  | q :: l' => q + total l'
  end.

(** SQL [SUM]: [NULL] when no value is present. *)
Definition sql_sum (l : list (option Q)) : option Q :=
  match present l with
  | [] => None
  | vs => Some (total vs)
  end.

(** SQL [AVG]: the mean of the values present, [NULL] when there is none. *)
Definition sql_avg (l : list (option Q)) : option Q :=
  match present l with
  | [] => None
  | vs => Some (total vs / inject_Z (Z.of_nat (length vs)))
  end.

(** The dictionary [get_statistics] returns. *)
Record statistics : Type := {
  shift_count : nat;
  total_revenue : Q;
  total_tips : Q;
  total_profit : Q;
  avg_revenue : Q;
  avg_tips : Q;
  avg_profit : Q
}.

(** [DatabaseManager.get_statistics] *)
Definition get_statistics (db : database) (start_date end_date : string)
  : option statistics :=
  let rows := filter (between start_date end_date) (shifts db) in
  let result0 := length rows in
  let result1 := sql_sum (map revenue rows) in
  let result2 := sql_sum (map tips rows) in
  let result3 := sql_avg (map revenue rows) in
  let result4 := sql_avg (map tips rows) in
  if Nat.eqb result0 0 then None
  else Some {|
    shift_count := result0;
    total_revenue := or_zero result1;
    total_tips := or_zero result2;
    total_profit := or_zero result1 + or_zero result2;
    avg_revenue := or_zero result3;
    avg_tips := or_zero result4;
    avg_profit := or_zero result3 + or_zero result4
  |}.

(** Neither amount of the row is [NULL]. *)
Definition complete (r : shift_row) : Prop :=
  revenue r <> None /\ tips r <> None.

(** The tables that the operations of the module produce, [update_value]
    being called with the values it is embedded for. *)
Inductive reachable : database -> Prop :=
| reachable_empty : reachable empty
| reachable_add_shift now db date_msg start end_ :
    reachable db -> reachable (snd (add_shift now db date_msg start end_))
| reachable_update_value now db date_msg field value :
    reachable db -> reachable (snd (update_value now db date_msg field value)).

End Database.

(* ================================================================== *)
(** * main.py: input cleaning and the profit reply *)
(* ================================================================== *)

Module Bot.
Import Py.
Local Open Scope Q_scope.

(** [clean_user_input] *)
Definition clean_user_input (text : string) : string :=
  if String.eqb text "" then ""
  else take_token (strip text).

(** The three texts [process_profit_date] chooses from, by their opening
    words. *)
Inductive encouragement : Type :=
| DontBeUpset      (* "Не расстраивайся, котик" *)
| NotBadShift      (* "Неплохая смена" *)
| Superstar.       (* "Ты просто суперстар" *)

(** The [if]/[elif]/[else] over [profit_float]. *)
Definition select_encouragement (profit_float : pyfloat) : encouragement :=
  if float_ltb profit_float (Finite 4000) then DontBeUpset
  else if float_leb (Finite 4000) profit_float
          && float_leb profit_float (Finite 6000)
       then NotBadShift
  else Superstar.

(** What the handler answers. *)
Inductive answer : Type :=
| DayNotCome
| WrongDateFormat
| ShiftNotFound (clean_date : string)
| NoProfitData
| ProfitText (clean_date : string) (profit_float : pyfloat) (e : encouragement).

Section ProfitFlow.

(** [dt.today()] and the two store operations the handler calls; the profit
    arrives as the float whose [str] the store returns, so that
    [float(profit_value)] gives it back. *)
Variable today : date.
Variable check_shift_exists : string -> bool.
Variable get_profit : string -> option pyfloat.

(** [process_profit_date]; the conversation state is cleared on every path. *)
Definition process_profit_date (text : string) : answer :=
  let clean_date := clean_user_input text in
  match strptime_dmY clean_date with
  | None => WrongDateFormat
  | Some day =>
      if date_gtb day today then DayNotCome
      else if negb (check_shift_exists clean_date)
           then ShiftNotFound clean_date
      else
        match get_profit clean_date with
        | None => NoProfitData
        | Some profit_float =>
            ProfitText clean_date profit_float
              (select_encouragement profit_float)
        end
  end.

End ProfitFlow.

End Bot.

(* ================================================================== *)
(** * main.py: the conversation handlers that write to the store *)
(* ================================================================== *)

Module Dialogue.
Import Py.

(** The states of [class Form(StatesGroup)]. *)
Inductive Form : Type :=
| waiting_for_date
| waiting_for_start
| waiting_for_end
| waiting_for_revenue_date
| waiting_for_revenue
| waiting_for_tips_date
| waiting_for_tips
| waiting_for_edit_date
| waiting_for_edit_field
| waiting_for_edit_value
| waiting_for_profit_date
| waiting_for_overwrite_confirm
| waiting_for_stats_start
| waiting_for_stats_end
| waiting_for_export_start
| waiting_for_export_end.

(** [FSMContext]: the state of the session and its data dictionary. *)
Record FSMContext : Type := {
  state : option Form;
  data : list (string * string)
}.

(** [state.clear()] *)
Definition clear : FSMContext := {| state := None; data := [] |}.

(** [state.set_state(f)] *)
Definition set_state (f : Form) (c : FSMContext) : FSMContext :=
  {| state := Some f; data := data c |}.

(** [state.update_data(key=value)] *)
Definition update_data (key value : string) (c : FSMContext) : FSMContext :=
  {| state := state c;
     data := (key, value)
             :: filter (fun kv => negb (String.eqb (fst kv) key)) (data c) |}.

(** [x in words] *)
Definition among (words : list string) (x : string) : bool :=
  existsb (String.eqb x) words.

(** The messages the handlers send, by what they say. *)
Inductive reply : Type :=
| AskShiftDate                   (* "Введи дату смены" *)
| WrongDate                      (* "Неверный формат даты" *)
| AskOverwrite (d : string)      (* "Смена на дату ... уже существует" *)
| AskStart                       (* "Введи время начала смены" *)
| AddCancelled                   (* "Добавление смены отменено" *)
| AskYesOrNo                     (* "Пожалуйста, ответь 'да' или 'нет'" *)
| WrongTime                      (* "Неверный формат времени" *)
| AskEnd                         (* "Теперь время окончания" *)
| ShiftAdded (d start end_ : string)   (* "Смена ... добавлена" *)
| AddFailed                      (* "Ошибка при добавлении смены" *)
| AskDate                        (* "Введи дату" / "Укажи дату" *)
| NoShift (d : string)           (* "Смена на дату ... не найдена" *)
| AskAmount                      (* "Введи сумму ..." *)
| WrongNumber                    (* "Неверный формат числа" *)
| AmountSaved (amount d : string)      (* "Выручка ... обновлена" / "Чаевые ... добавлены" *)
| AmountFailed                   (* "Не удалось ..." *)
| AskField                       (* "Что редактируем?" *)
| NoSuchField                    (* "Такого параметра нет" *)
| AskValue (field : string)      (* "Введи новое значение для ..." *)
| Edited (field value d : string)      (* "... изменен на ... для даты ..." *)
| EditFailed.                    (* "Ошибка: не удалось сохранить изменения" *)

(** [add_shift_start], [revenue_start], [tips_start], [edit_start]:
    [check_access] lets everyone through. *)
Definition add_shift_start (c : FSMContext) : FSMContext * reply :=
  (set_state waiting_for_date c, AskShiftDate).

Definition revenue_start (c : FSMContext) : FSMContext * reply :=
  (set_state waiting_for_revenue_date c, AskDate).

Definition tips_start (c : FSMContext) : FSMContext * reply :=
  (set_state waiting_for_tips_date c, AskDate).

Definition edit_start (c : FSMContext) : FSMContext * reply :=
  (set_state waiting_for_edit_date c, AskDate).

(** [process_overwrite_confirm] *)
Definition process_overwrite_confirm (c : FSMContext) (text : string)
  : FSMContext * reply :=
  let user_response := lower (Bot.clean_user_input text) in
  if among ["да"; "yes"; "y"; "д"] user_response then
    (set_state waiting_for_start c, AskStart)
  else if among ["нет"; "no"; "n"; "н"] user_response then
    (clear, AddCancelled)
  else (c, AskYesOrNo).

(** [process_start] *)
Definition process_start (c : FSMContext) (text : string)
  : FSMContext * reply :=
  let clean_start := Bot.clean_user_input text in
  match strptime_HM clean_start with
  | None => (clear, WrongTime)
  | Some _ =>
      (set_state waiting_for_end (update_data "start" clean_start c), AskEnd)
  end.

(** [process_edit_field] *)
Definition process_edit_field (c : FSMContext) (text : string)
  : FSMContext * reply :=
  let field := lower (Bot.clean_user_input text) in
  if negb (among ["чай"; "начало"; "конец"; "выручка"] field) then
    (clear, NoSuchField)
  else
    (set_state waiting_for_edit_value (update_data "edit_field" field c),
     AskValue field).

Section Handlers.

(** The store and the operations that [main.py] binds at start-up, of one
    backend or the other. *)
Variable store : Type.
Variable add_shift : store -> string -> string -> string -> bool * store.
Variable update_value : store -> string -> string -> string -> bool * store.
Variable check_shift_exists : store -> string -> bool.

(** [process_date] *)
Definition process_date (s : store) (c : FSMContext) (text : string)
  : FSMContext * reply :=
  let clean_date := Bot.clean_user_input text in
  match strptime_dmY clean_date with
  | None => (clear, WrongDate)
  | Some _ =>
      if check_shift_exists s clean_date then
        (set_state waiting_for_overwrite_confirm
           (update_data "date" clean_date c), AskOverwrite clean_date)
      else
        (set_state waiting_for_start (update_data "date" clean_date c),
         AskStart)
  end.

(** [process_end]; [None] stands for the [KeyError] of a missing entry of
    the data dictionary. *)
Definition process_end (s : store) (c : FSMContext) (text : string)
  : option (store * FSMContext * reply) :=
  match dict_get (data c) "date" with
  | None => None
  | Some date_msg =>
      match dict_get (data c) "start" with
      | None => None
      | Some start =>
          let end_ := Bot.clean_user_input text in
          match strptime_HM end_ with
          | None => Some (s, clear, WrongTime)
          | Some _ =>
              let '(success, s') := add_shift s date_msg start end_ in
              Some (s', clear,
                    if success then ShiftAdded date_msg start end_
                    else AddFailed)
          end
      end
  end.

(** [process_revenue_date], [process_tips_date] and [process_edit_date]
    differ in the key they store the date under, the state they move to and
    the question they ask. *)
Definition process_known_date (key : string) (next : Form) (ask : reply)
  (s : store) (c : FSMContext) (text : string) : FSMContext * reply :=
  let clean_date := Bot.clean_user_input text in
  if negb (check_shift_exists s clean_date) then (clear, NoShift clean_date)
  else (set_state next (update_data key clean_date c), ask).

Definition process_revenue_date :=
  process_known_date "revenue_date" waiting_for_revenue AskAmount.

Definition process_tips_date :=
  process_known_date "tips_date" waiting_for_tips AskAmount.

Definition process_edit_date :=
  process_known_date "edit_date" waiting_for_edit_field AskField.

(** [process_revenue] and [process_tips] differ in the key of the date and
    in the field they update. *)
Definition process_amount (key field : string)
  (s : store) (c : FSMContext) (text : string)
  : option (store * FSMContext * reply) :=
  match dict_get (data c) key with
  | None => None
  | Some date_msg =>
      let amount := Bot.clean_user_input text in
      if float_raises amount then Some (s, clear, WrongNumber)
      else
        let '(success, s') := update_value s date_msg field amount in
        Some (s', clear,
              if success then AmountSaved amount date_msg else AmountFailed)
  end.

Definition process_revenue := process_amount "revenue_date" "выручка".

Definition process_tips := process_amount "tips_date" "чай".

(** [process_edit_value] *)
Definition process_edit_value (s : store) (c : FSMContext) (text : string)
  : option (store * FSMContext * reply) :=
  match dict_get (data c) "edit_date" with
  | None => None
  | Some date_msg =>
      match dict_get (data c) "edit_field" with
      | None => None
      | Some field =>
          let value := Bot.clean_user_input text in
          let '(success, s') := update_value s date_msg field value in
          Some (s', clear,
                if success then Edited field value date_msg else EditFailed)
      end
  end.

End Handlers.

(** [range(0, n, step)] *)
Definition range_step (n step : nat) : list nat :=
  map (fun k => k * step)%nat (seq 0 ((n + step - 1) / step)).

(** The messages [process_export_end] sends for the text of a report, a
    sequence of characters:
    [[export_text[i:i+4000] for i in range(0, len(export_text), 4000)]]
    when the text is longer than 4000 characters, the text itself
    otherwise. *)
Definition export_messages {A : Type} (export_text : list A) : list (list A) :=
  if (4000 <? length export_text)%nat then
    map (fun i => firstn 4000 (skipn i export_text))
      (range_step (length export_text) 4000)
  else [export_text].

End Dialogue.

(* ================================================================== *)
(** * Stores used in the examples *)
(* ================================================================== *)

Module Samples.
Import Py.
Local Open Scope Q_scope.

(** The scenario of the specification in the SQLite backend: the shift of
    01.03.2024 from 22:00 to 06:00, then revenue 1000 and tips 500. *)
Definition db_shift : Database.database :=
  snd (Database.add_shift 100 Database.empty "01.03.2024" "22:00" "06:00").

Definition db_revenue : Database.database :=
  snd (Database.update_value 101 db_shift "01.03.2024" "выручка" "1000").

Definition db_march : Database.database :=
  snd (Database.update_value 102 db_revenue "01.03.2024" "чай" "500").

(** The same scenario in the spreadsheet backend, from a sheet that holds
    the header row. *)
Definition sheet_header : Sheets.manager :=
  {| Sheets.initialized := true;
     Sheets.worksheet :=
       [[PyStr "Дата"; PyStr "Начало"; PyStr "Конец"; PyStr "Выручка";
         PyStr "Чаевые"; PyStr "Часы"; PyStr "Прибыль"]] |}.

Definition sheet_shift : Sheets.manager :=
  snd (Sheets.add_shift sheet_header "01.03.2024" "22:00" "06:00").

Definition sheet_revenue : Sheets.manager :=
  snd (Sheets.update_value sheet_shift "01.03.2024" "выручка" "1000").

Definition sheet_march : Sheets.manager :=
  snd (Sheets.update_value sheet_revenue "01.03.2024" "чай" "500").

(** A sheet with the record of 01.03.2024 whose start cell holds the text
    of another date. *)
Definition sheet_date_in_start_cell : Sheets.manager :=
  {| Sheets.initialized := true;
     Sheets.worksheet :=
       [[PyStr "Дата"; PyStr "Начало"; PyStr "Конец"; PyStr "Выручка";
         PyStr "Чаевые"; PyStr "Часы"; PyStr "Прибыль"];
        [PyStr "01.03.2024"; PyStr "02.03.2024"; PyStr "06:00";
         PyStr "1000"; PyStr "500"]] |}.

(** Two shifts, of 1 February 2024 and of 2 January 2024. *)
Definition db_two_months : Database.database :=
  snd (Database.add_shift 201
         (snd (Database.add_shift 200 Database.empty
                 "01.02.2024" "10:00" "18:00"))
         "02.01.2024" "10:00" "18:00").

(** One shift, of 20 January 2024. *)
Definition db_late_january : Database.database :=
  snd (Database.add_shift 210 Database.empty "20.01.2024" "10:00" "18:00").

(** Two shifts with revenue 1000 and 2000 and tips 100 and 200. *)
Definition db_two_shifts : Database.database :=
  let db1 := snd (Database.add_shift 300 Database.empty
                    "01.03.2024" "10:00" "18:00") in
  let db2 := snd (Database.add_shift 301 db1 "02.03.2024" "10:00" "18:00") in
  let db3 := snd (Database.update_value 302 db2 "01.03.2024" "выручка" "1000") in
  let db4 := snd (Database.update_value 303 db3 "02.03.2024" "выручка" "2000") in
  let db5 := snd (Database.update_value 304 db4 "01.03.2024" "чай" "100") in
  snd (Database.update_value 305 db5 "02.03.2024" "чай" "200").

End Samples.

(* ================================================================== *)
(** * Properties of the built-ins *)
(* ================================================================== *)

Import Py.

Lemma in_range_digit_val lo hi c :
  in_range lo hi c = true -> lo - 48 <= digit_val c <= hi - 48.
Proof.
  unfold in_range, digit_val. intros H.
  apply andb_true_iff in H. destruct H as [H1 H2].
  apply Z.leb_le in H1. apply Z.leb_le in H2. lia.
Qed.

Lemma is_digit_val c : is_digit c = true -> 0 <= digit_val c <= 9.
Proof. intros H. apply (in_range_digit_val 48 57) in H. lia. Qed.

Lemma eqb_digit_val a c : Ascii.eqb a c = true -> digit_val a = digit_val c.
Proof. intros H. apply Ascii.eqb_eq in H. now subst. Qed.

(** Turn the boolean tests of the readers into facts about digit values. *)
Ltac digit_facts :=
  repeat match goal with
  | H : Some (?x, _) = Some (?h, _) |- _ =>
      assert (h = x) by congruence; clear H
  | H : None = Some _ |- _ => discriminate H
  | H : _ && _ = true |- _ => apply andb_true_iff in H; destruct H
  | H : _ || _ = true |- _ => apply orb_true_iff in H; destruct H
  | H : Ascii.eqb _ _ = true |- _ =>
      apply eqb_digit_val in H; unfold digit_val at 2 in H; simpl in H
  | H : in_range _ _ _ = true |- _ => apply in_range_digit_val in H
  | H : is_digit _ = true |- _ => apply is_digit_val in H
  end.

Lemma read_hour_range s h r : read_hour s = Some (h, r) -> 0 <= h <= 23.
Proof.
  destruct s as [|a [|b s']]; lazy beta iota delta [read_hour]; intros H.
  - discriminate.
  - destruct (is_digit a) eqn:Ea; digit_facts; lia.
  - destruct (_ || _) eqn:E2 in H.
    + digit_facts; lia.
    + destruct (is_digit a) eqn:Ea; digit_facts; lia.
Qed.

Lemma read_minute_range s m r : read_minute s = Some (m, r) -> 0 <= m <= 59.
Proof.
  destruct s as [|a [|b s']]; lazy beta iota delta [read_minute]; intros H.
  - discriminate.
  - destruct (is_digit a) eqn:Ea; digit_facts; lia.
  - destruct (_ && _) eqn:E2 in H.
    + digit_facts; lia.
    + destruct (is_digit a) eqn:Ea; digit_facts; lia.
Qed.

(** A parsed time is a time of the 24-hour clock. *)
Lemma strptime_HM_range s t :
  strptime_HM s = Some t -> 0 <= hour t <= 23 /\ 0 <= minute t <= 59.
Proof.
  unfold strptime_HM.
  destruct (read_hour s) as [[h r]|] eqn:Eh; [|discriminate].
  destruct r as [|c r]; [discriminate|].
  destruct (Ascii.eqb c ":") eqn:Ec.
  - apply Ascii.eqb_eq in Ec. subst c.
    destruct (read_minute r) as [[m r']|] eqn:Em; [|discriminate].
    destruct r'; [|discriminate].
    intros H. inversion H; subst; simpl.
    split; [eapply read_hour_range | eapply read_minute_range]; eauto.
  - intros H. exfalso.
    destruct c as [[] [] [] [] [] [] [] []]; try discriminate H;
      discriminate Ec.
Qed.

(* ================================================================== *)
(** * The profit calculator *)
(* ================================================================== *)

Import Sheets.
Local Open Scope Q_scope.

(** Move [inject_Z] to the leaves of an integer expression. *)
Ltac push_inject :=
  unfold Z.sub;
  repeat first [rewrite inject_Z_plus | rewrite inject_Z_mult
               | rewrite inject_Z_opp].

Lemma duration_seconds_range s e :
  (0 <= hour s <= 23 /\ 0 <= minute s <= 59)%Z ->
  (0 <= hour e <= 23 /\ 0 <= minute e <= 59)%Z ->
  (0 <= duration_seconds s e < 86400)%Z.
Proof.
  unfold duration_seconds, seconds_of. intros Hs He.
  destruct (Z.ltb_spec (hour e * 3600 + minute e * 60)
                       (hour s * 3600 + minute s * 60)); lia.
Qed.

Lemma calculate_hours_parsed start_time end_time s e :
  strptime_HM start_time = Some s -> strptime_HM end_time = Some e ->
  _calculate_hours (PyStr start_time) (PyStr end_time)
  = inject_Z (duration_seconds s e) / 3600.
Proof.
  intros Hs He. unfold _calculate_hours, parse_time. now rewrite Hs, He.
Qed.

(** The hours are never negative and stay below 24, whatever the arguments
    are. *)
Lemma calculate_hours_range start_time end_time :
  0 <= _calculate_hours start_time end_time
  /\ _calculate_hours start_time end_time < 24.
Proof.
  unfold _calculate_hours.
  destruct (parse_time start_time) as [s|] eqn:Es;
    [|split; [apply Qle_refl | reflexivity]].
  destruct (parse_time end_time) as [e|] eqn:Ee;
    [|split; [apply Qle_refl | reflexivity]].
  assert (Hs : (0 <= hour s <= 23 /\ 0 <= minute s <= 59)%Z).
  { destruct start_time; try discriminate. now apply (strptime_HM_range s0). }
  assert (He : (0 <= hour e <= 23 /\ 0 <= minute e <= 59)%Z).
  { destruct end_time; try discriminate. now apply (strptime_HM_range s0). }
  pose proof (duration_seconds_range s e Hs He) as [H0 H1].
  rewrite Zle_Qle in H0. rewrite Zlt_Qlt in H1.
  generalize dependent (inject_Z (duration_seconds s e)). intros d H0 H1.
  change (inject_Z 0) with 0 in H0. change (inject_Z 86400) with 86400 in H1.
  unfold Qdiv. change (/ 3600) with (1 # 3600). split; lra.
Qed.


Lemma calculate_profit_valid start_time end_time revenue tips r t :
  number_or_zero revenue = Some r -> number_or_zero tips = Some t ->
  _calculate_profit start_time end_time revenue tips
  = _calculate_hours start_time end_time * 220 + t + r * 0.015.
Proof. intros Hr Ht. unfold _calculate_profit. now rewrite Hr, Ht. Qed.

Lemma replace_comma_idempotent s :
  replace_comma (replace_comma s) = replace_comma s.
Proof.
  induction s as [|c s IH]; simpl; [reflexivity|].
  rewrite IH. destruct (Ascii.eqb c ",") eqn:E; [reflexivity|].
  now rewrite E.
Qed.

Lemma replace_comma_empty s :
  String.eqb (replace_comma s) "" = String.eqb s "".
Proof. destruct s; reflexivity. Qed.

(** C4.  For times that [strptime] accepts: when the end is not earlier than
    the start, the hours are the end minus the start in fractional hours;
    when the end is earlier, they are the end plus 24 hours minus the
    start. *)
Theorem calculate_hours_formula (start_time end_time : string)
  (s e : time_of_day) :
  strptime_HM start_time = Some s ->
  strptime_HM end_time = Some e ->
  (~ earlier e s ->
   _calculate_hours (PyStr start_time) (PyStr end_time)
   == clock_hours e - clock_hours s)
  /\ (earlier e s ->
      _calculate_hours (PyStr start_time) (PyStr end_time)
      == clock_hours e + 24 - clock_hours s).
Proof.
  intros Hs He.
  rewrite (calculate_hours_parsed _ _ _ _ Hs He).
  apply strptime_HM_range in Hs, He.
  unfold duration_seconds, seconds_of, clock_hours, earlier.
  destruct (Z.ltb_spec (hour e * 3600 + minute e * 60)
                       (hour s * 3600 + minute s * 60)) as [Hlt|Hge];
    split; intros Hord; try (exfalso; lia); push_inject; field.
Qed.

Lemma calculate_hours_formula_witness :
  _calculate_hours (PyStr "22:00") (PyStr "06:00") == 8
  /\ _calculate_hours (PyStr "09:30") (PyStr "18:00") == 8.5.
Proof.
  split.
  - destruct (calculate_hours_formula "22:00" "06:00"
                {| hour := 22; minute := 0 |} {| hour := 6; minute := 0 |}
                eq_refl eq_refl) as [_ H].
    rewrite H; [reflexivity | left; simpl; lia].
  - destruct (calculate_hours_formula "09:30" "18:00"
                {| hour := 9; minute := 30 |} {| hour := 18; minute := 0 |}
                eq_refl eq_refl) as [H _].
    rewrite H; [reflexivity | unfold earlier; simpl; lia].
Defined.

(** C10.  For a time [t] that [strptime] accepts the hours from [t] to [t]
    are 0; for all arguments the hours lie in the half-open interval from 0
    to 24, so no pair of times stands for a 24-hour shift; and a shift whose
    start and end are equal adds no hours to its profit. *)
Theorem calculate_hours_zero_and_below_24 (t : string) (tod : time_of_day)
  (start_time end_time revenue tips : pyval) (r tp : Q) :
  strptime_HM t = Some tod ->
  number_or_zero revenue = Some r ->
  number_or_zero tips = Some tp ->
  _calculate_hours (PyStr t) (PyStr t) == 0
  /\ (0 <= _calculate_hours start_time end_time
      /\ _calculate_hours start_time end_time < 24)
  /\ ~ _calculate_hours start_time end_time == 24
  /\ _calculate_profit (PyStr t) (PyStr t) revenue tips == tp + r * 0.015.
Proof.
  intros Ht Hr Htp.
  assert (H0 : _calculate_hours (PyStr t) (PyStr t) == 0).
  { rewrite (calculate_hours_parsed _ _ _ _ Ht Ht).
    unfold duration_seconds. rewrite Z.ltb_irrefl, Z.sub_diag. reflexivity. }
  pose proof (calculate_hours_range start_time end_time) as [Hlo Hhi].
  repeat split; try assumption.
  - intros H24. rewrite H24 in Hhi. discriminate Hhi.
  - rewrite (calculate_profit_valid _ _ _ _ _ _ Hr Htp), H0. ring.
Qed.

Lemma calculate_hours_zero_and_below_24_witness :
  _calculate_hours (PyStr "09:00") (PyStr "09:00") == 0
  /\ (0 <= _calculate_hours (PyStr "00:00") (PyStr "23:59")
      /\ _calculate_hours (PyStr "00:00") (PyStr "23:59") < 24)
  /\ ~ _calculate_hours (PyStr "00:00") (PyStr "23:59") == 24
  /\ _calculate_profit (PyStr "09:00") (PyStr "09:00")
       (PyStr "1000") (PyStr "500") == 500 + 1000 * 0.015.
Proof.
  exact (calculate_hours_zero_and_below_24 "09:00"
           {| hour := 9; minute := 0 |}
           (PyStr "00:00") (PyStr "23:59") (PyStr "1000") (PyStr "500")
           1000 500 eq_refl eq_refl eq_refl).
Defined.

(** C5.  With revenue and tips that convert to numbers the profit is
    [hours * 220 + tips + revenue * 0.015]; a string is converted after its
    commas are replaced by points, so that either spelling gives the same
    number; an absent or empty value counts as 0; and for 22:00 to 06:00,
    revenue 1000 and tips 500 the profit is 2275, given as numbers or as
    strings. *)
Theorem calculate_profit_formula :
  (forall start_time end_time revenue tips r t,
      number_or_zero revenue = Some r ->
      number_or_zero tips = Some t ->
      _calculate_profit start_time end_time revenue tips
      == _calculate_hours start_time end_time * 220 + t + r * 0.015)
  /\ (forall s, number_or_zero (PyStr s) = number_or_zero (PyStr (replace_comma s)))
  /\ (forall s, String.eqb s "" = false ->
                number_or_zero (PyStr s) = float (replace_comma s))
  /\ number_or_zero (PyStr "12,5") = Some 12.5
  /\ number_or_zero PyNone = Some 0
  /\ number_or_zero (PyStr "") = Some 0
  /\ _calculate_hours (PyStr "22:00") (PyStr "06:00") == 8
  /\ _calculate_profit (PyStr "22:00") (PyStr "06:00") (PyNum 1000) (PyNum 500)
     == 2275
  /\ _calculate_profit (PyStr "22:00") (PyStr "06:00")
       (PyStr "1000") (PyStr "500") == 2275
  /\ _calculate_profit (PyStr "22:00") (PyStr "06:00")
       (PyStr "1000,00") (PyStr "500,0") == 2275.
Proof.
  split; [|split; [|split]].
  - intros start_time end_time revenue tips r t Hr Ht.
    now rewrite (calculate_profit_valid _ _ _ _ _ _ Hr Ht).
  - intros s. unfold number_or_zero, truthy, float_of_pyval.
    now rewrite replace_comma_empty, replace_comma_idempotent.
  - intros s Hs. unfold number_or_zero, truthy, float_of_pyval.
    now rewrite Hs.
  - repeat split; reflexivity.
Qed.

Lemma calculate_profit_formula_witness :
  _calculate_profit (PyStr "10:00") (PyStr "18:30") (PyStr "2000,5") PyNone
  == _calculate_hours (PyStr "10:00") (PyStr "18:30") * 220 + 0
     + 2000.5 * 0.015.
Proof.
  exact (proj1 calculate_profit_formula (PyStr "10:00") (PyStr "18:30")
           (PyStr "2000,5") PyNone 2000.5 0 eq_refl eq_refl).
Defined.



(* ================================================================== *)
(** * The profit reply *)
(* ================================================================== *)

Import Bot.

Lemma Qle_bool_false x y : Qle_bool x y = false -> y < x.
Proof.
  intros H. apply Qnot_le_lt. intros Hle.
  apply Qle_bool_iff in Hle. congruence.
Qed.

(** The reply carries the profit the store returned for the cleaned date and
    the text chosen for that profit. *)
Lemma process_profit_date_text today exists_ profit_of text d p e :
  process_profit_date today exists_ profit_of text = ProfitText d p e ->
  d = clean_user_input text /\ profit_of d = Some p
  /\ e = select_encouragement p.
Proof.
  unfold process_profit_date.
  destruct (strptime_dmY (clean_user_input text)); [|discriminate].
  destruct (date_gtb d0 today); [discriminate|].
  destruct (negb (exists_ (clean_user_input text))); [discriminate|].
  destruct (profit_of (clean_user_input text)) as [q|] eqn:E; [|discriminate].
  intros H. inversion H; subst. auto.
Qed.

Lemma select_encouragement_cases (q : Q) :
  (select_encouragement (Finite q) = DontBeUpset <-> q < 4000)
  /\ (select_encouragement (Finite q) = NotBadShift <-> 4000 <= q /\ q <= 6000)
  /\ (select_encouragement (Finite q) = Superstar <-> 6000 < q).
Proof.
  unfold select_encouragement, float_ltb, float_leb, Qltb.
  destruct (Qle_bool 4000 q) eqn:E1; destruct (Qle_bool q 6000) eqn:E2; simpl;
    repeat match goal with
    | H : Qle_bool _ _ = true |- _ => apply Qle_bool_iff in H
    | H : Qle_bool _ _ = false |- _ => apply Qle_bool_false in H
    end;
    repeat split; intros; try discriminate; try lra; try reflexivity.
Qed.

(** The three tests of the handler on a float that is not NaN: the [else]
    branch is taken exactly above 6000. *)
Lemma select_encouragement_ordered (p : pyfloat) :
  p <> NaN ->
  (select_encouragement p = DontBeUpset <-> float_ltb p (Finite 4000) = true)
  /\ (select_encouragement p = NotBadShift
      <-> float_leb (Finite 4000) p = true /\ float_leb p (Finite 6000) = true)
  /\ (select_encouragement p = Superstar <-> float_ltb (Finite 6000) p = true).
Proof.
  intros Hnan. destruct p as [q| | |]; [| | |congruence].
  - destruct (select_encouragement_cases q) as (H1 & H2 & H3).
    unfold float_ltb, float_leb, Qltb.
    split; [|split].
    + rewrite H1, negb_true_iff. split; intros H.
      * destruct (Qle_bool 4000 q) eqn:E; [|reflexivity].
        apply Qle_bool_iff in E. lra.
      * apply Qle_bool_false in H. exact H.
    + rewrite H2, <- !Qle_bool_iff. tauto.
    + rewrite H3, negb_true_iff. split; intros H.
      * destruct (Qle_bool q 6000) eqn:E; [|reflexivity].
        apply Qle_bool_iff in E. lra.
      * apply Qle_bool_false in H. exact H.
  - cbv. repeat split; intros; try discriminate; try reflexivity.
    destruct H; discriminate.
  - cbv. repeat split; intros; try discriminate; try reflexivity.
    destruct H; discriminate.
Qed.

Lemma process_profit_date_reply today exists_ profit_of text d p :
  strptime_dmY (clean_user_input text) = Some d ->
  date_gtb d today = false ->
  exists_ (clean_user_input text) = true ->
  profit_of (clean_user_input text) = Some p ->
  process_profit_date today exists_ profit_of text
  = ProfitText (clean_user_input text) p (select_encouragement p).
Proof.
  intros Hd Hgt Hex Hp. unfold process_profit_date.
  now rewrite Hd, Hgt, Hex, Hp.
Qed.

(** C9, as the code has it.  For a profit that is not NaN the text of the
    profit reply is chosen by the thresholds: the first below 4000, the
    second from 4000 to 6000 with both bounds included, the third above
    6000, so that every such profit has exactly one text; for a number the
    comparisons are those of the rationals.  A NaN profit is given the third
    text.  The reply of the handler carries the text chosen for the profit
    that the store returned. *)
Theorem encouragement_thresholds :
  (forall profit_float : pyfloat,
      profit_float <> NaN ->
      (select_encouragement profit_float = DontBeUpset
       <-> float_ltb profit_float (Finite 4000) = true)
      /\ (select_encouragement profit_float = NotBadShift
          <-> float_leb (Finite 4000) profit_float = true
              /\ float_leb profit_float (Finite 6000) = true)
      /\ (select_encouragement profit_float = Superstar
          <-> float_ltb (Finite 6000) profit_float = true))
  /\ (forall q : Q,
         (select_encouragement (Finite q) = DontBeUpset <-> q < 4000)
         /\ (select_encouragement (Finite q) = NotBadShift
             <-> 4000 <= q /\ q <= 6000)
         /\ (select_encouragement (Finite q) = Superstar <-> 6000 < q))
  /\ select_encouragement PosInf = Superstar
  /\ select_encouragement NegInf = DontBeUpset
  /\ select_encouragement NaN = Superstar
  /\ (forall profit_float today exists_ profit_of text d,
         strptime_dmY (clean_user_input text) = Some d ->
         date_gtb d today = false ->
         exists_ (clean_user_input text) = true ->
         profit_of (clean_user_input text) = Some profit_float ->
         process_profit_date today exists_ profit_of text
         = ProfitText (clean_user_input text) profit_float
             (select_encouragement profit_float))
  /\ (forall profit_float today exists_ profit_of text d e,
         process_profit_date today exists_ profit_of text
         = ProfitText d profit_float e ->
         profit_of d = Some profit_float
         /\ e = select_encouragement profit_float).
Proof.
  split; [exact select_encouragement_ordered|].
  split; [exact select_encouragement_cases|].
  split; [reflexivity|]. split; [reflexivity|]. split; [reflexivity|].
  split.
  - intros profit_float today exists_ profit_of text d.
    apply process_profit_date_reply.
  - intros profit_float today exists_ profit_of text d e H.
    apply process_profit_date_text in H. tauto.
Qed.

Lemma encouragement_thresholds_witness :
  select_encouragement (Finite 3999.99) = DontBeUpset
  /\ select_encouragement (Finite 4000) = NotBadShift
  /\ select_encouragement (Finite 6000) = NotBadShift
  /\ select_encouragement (Finite 6000.01) = Superstar.
Proof.
  destruct encouragement_thresholds as (Hord & _).
  assert (Hnum : forall q, Finite q <> NaN) by discriminate.
  split; [|split; [|split]].
  - apply (proj1 (Hord (Finite 3999.99) (Hnum _))). reflexivity.
  - apply (proj1 (proj2 (Hord (Finite 4000) (Hnum _)))). split; reflexivity.
  - apply (proj1 (proj2 (Hord (Finite 6000) (Hnum _)))). split; reflexivity.
  - apply (proj2 (proj2 (Hord (Finite 6000.01) (Hnum _)))). reflexivity.
Defined.

(** C9 as stated fails.  The revenue [inf] and the tips [-inf] pass the
    [float] test of the conversation, their sum is NaN, and for a NaN
    profit the handler takes its [else] branch and sends the third text,
    although NaN is not above 6000. *)
Lemma nan_profit_gets_third_text :
  float_raises "inf" = false
  /\ float_raises "-inf" = false
  /\ float_value "inf" = Some PosInf
  /\ float_value "-inf" = Some NegInf
  /\ float_add PosInf NegInf = NaN
  /\ select_encouragement NaN = Superstar
  /\ float_ltb (Finite 6000) NaN = false.
Proof. repeat split; reflexivity. Qed.

(* ================================================================== *)
(** * The SQLite backend *)
(* ================================================================== *)

Import Database.

Lemma or_zero_some q : or_zero (Some q) == q.
Proof.
  simpl. destruct (Qeq_bool q 0) eqn:E; [|reflexivity].
  apply Qeq_bool_iff in E. now symmetry.
Qed.

Lemma total_present l : total (present l) == total (map or_zero l).
Proof.
  induction l as [|[q|] l IH]; cbn [present total map].
  - reflexivity.
  - now rewrite IH, or_zero_some.
  - rewrite IH. cbn [or_zero]. ring.
Qed.

(** [SUM(c) or 0] adds up the column with [NULL] counted as 0. *)
Lemma or_zero_sql_sum l : or_zero (sql_sum l) == total (map or_zero l).
Proof.
  rewrite <- total_present. unfold sql_sum.
  destruct (present l) as [|q vs]; [reflexivity|]. apply or_zero_some.
Qed.

Lemma present_all l :
  Forall (fun x => x <> None) l -> map Some (present l) = l.
Proof.
  induction 1 as [|[q|] l Hx Hl IH]; cbn [present map].
  - reflexivity.
  - now rewrite IH.
  - congruence.
Qed.

Lemma present_length l :
  Forall (fun x => x <> None) l -> length (present l) = length l.
Proof.
  intros H. rewrite <- (present_all l H) at 2. now rewrite length_map.
Qed.

(** [AVG(c) or 0] over a column without [NULL] and with at least one row
    is the sum divided by the number of rows. *)
Lemma or_zero_sql_avg l :
  Forall (fun x => x <> None) l -> l <> [] ->
  or_zero (sql_avg l)
  == total (map or_zero l) / inject_Z (Z.of_nat (length l)).
Proof.
  intros Hall Hne. unfold sql_avg.
  rewrite <- total_present, <- (present_length l Hall).
  destruct (present l) as [|q vs] eqn:E.
  - apply present_length in Hall. rewrite E in Hall.
    destruct l; [congruence|discriminate].
  - apply or_zero_some.
Qed.

Lemma insert_by_date_perm r l : Permutation (insert_by_date r l) (r :: l).
Proof.
  induction l as [|x l IH]; simpl; [reflexivity|].
  destruct (String.leb (date r) (date x)); [reflexivity|].
  rewrite IH. apply perm_swap.
Qed.

(** [ORDER BY] rearranges the rows and does nothing else. *)
Lemma order_by_date_perm l : Permutation (order_by_date l) l.
Proof.
  induction l as [|r l IH]; simpl; [reflexivity|].
  rewrite insert_by_date_perm. now constructor.
Qed.

Lemma total_perm l l' : Permutation l l' -> total l == total l'.
Proof.
  induction 1; simpl; try reflexivity.
  - now rewrite IHPermutation.
  - ring.
  - now rewrite IHPermutation1.
Qed.

(** The list of [get_shifts_in_period] has one entry for each row that the
    range selects. *)
Lemma get_shifts_in_period_length db start_date end_date :
  length (get_shifts_in_period db start_date end_date)
  = length (filter (between start_date end_date) (shifts db)).
Proof.
  unfold get_shifts_in_period. rewrite length_map.
  apply Permutation_length, order_by_date_perm.
Qed.

Lemma get_shifts_in_period_total (f : shift -> Q) db start_date end_date :
  total (map f (get_shifts_in_period db start_date end_date))
  == total (map (fun r => f (shift_of_row r))
              (filter (between start_date end_date) (shifts db))).
Proof.
  unfold get_shifts_in_period. rewrite map_map.
  apply total_perm, Permutation_map, order_by_date_perm.
Qed.

(** What [get_statistics] computes from the rows that its comparison of
    the dates as text selects.  It is absent exactly when no row is
    selected.  Otherwise, with [N] the number of selected rows, the count is
    [N], the totals are the sums of the revenue and of the tips of these
    rows, the total profit is the total revenue plus the total tips, and,
    when no amount of the table is [NULL], the averages are the totals
    divided by [N]. *)
Lemma get_statistics_of_selected_rows (db : database) (start_date end_date : string) :
  (get_statistics db start_date end_date = None
   <-> length (get_shifts_in_period db start_date end_date) = 0%nat)
  /\ forall st,
      get_statistics db start_date end_date = Some st ->
      shift_count st = length (get_shifts_in_period db start_date end_date)
      /\ total_revenue st
         == total (map shift_revenue
                     (get_shifts_in_period db start_date end_date))
      /\ total_tips st
         == total (map shift_tips (get_shifts_in_period db start_date end_date))
      /\ total_profit st == total_revenue st + total_tips st
      /\ avg_profit st == avg_revenue st + avg_tips st
      /\ (Forall complete (shifts db) ->
          avg_revenue st
          == total_revenue st / inject_Z (Z.of_nat (shift_count st))
          /\ avg_tips st
             == total_tips st / inject_Z (Z.of_nat (shift_count st))
          /\ avg_profit st
             == total_profit st / inject_Z (Z.of_nat (shift_count st))).
Proof.
  rewrite get_shifts_in_period_length.
  pose proof (get_shifts_in_period_total shift_revenue db start_date end_date)
    as Trev.
  pose proof (get_shifts_in_period_total shift_tips db start_date end_date)
    as Ttips.
  unfold get_statistics.
  set (rows := filter (between start_date end_date) (shifts db)) in *.
  destruct (Nat.eqb_spec (length rows) 0) as [H0|Hpos].
  - split; [tauto | discriminate].
  - split; [split; [discriminate | contradiction]|].
    intros st Hst. inversion Hst; subst st; clear Hst; cbn [shift_count
      total_revenue total_tips total_profit avg_revenue avg_tips avg_profit].
    assert (Hrev : or_zero (sql_sum (map revenue rows))
                   == total (map shift_revenue
                               (get_shifts_in_period db start_date end_date))).
    { rewrite Trev, or_zero_sql_sum, map_map. reflexivity. }
    assert (Htips : or_zero (sql_sum (map tips rows))
                    == total (map shift_tips
                                (get_shifts_in_period db start_date end_date))).
    { rewrite Ttips, or_zero_sql_sum, map_map. reflexivity. }
    repeat (split; [first [reflexivity | assumption]|]).
    intros Hall.
    assert (Hrows : Forall complete rows).
    { apply Forall_forall. intros r Hin. apply filter_In in Hin.
      rewrite Forall_forall in Hall. now apply Hall. }
    assert (Hne : forall c : shift_row -> option Q, map c rows <> []).
    { intros c E. apply (f_equal (@length _)) in E.
      rewrite length_map in E. contradiction. }
    assert (Hr : Forall (fun x => x <> None) (map revenue rows)).
    { apply Forall_map. eapply Forall_impl; [|exact Hrows].
      intros r [H _]. exact H. }
    assert (Ht : Forall (fun x => x <> None) (map tips rows)).
    { apply Forall_map. eapply Forall_impl; [|exact Hrows].
      intros r [_ H]. exact H. }
    pose proof (or_zero_sql_avg _ Hr (Hne revenue)) as Ar.
    pose proof (or_zero_sql_avg _ Ht (Hne tips)) as At.
    rewrite length_map in Ar, At.
    rewrite <- or_zero_sql_sum in Ar, At.
    assert (HN : ~ inject_Z (Z.of_nat (length rows)) == 0).
    { intros E. apply Hpos. unfold Qeq in E. simpl in E. lia. }
    repeat split.
    + exact Ar.
    + exact At.
    + rewrite Ar, At. field. exact HN.
Qed.

(** C7.  [get_statistics] selects the shifts of a range by comparing the
    dates as text, like [get_shifts_in_period] (C6), so that the shifts it
    counts are not those of the calendar range.  With shifts on 1 February
    2024 and 2 January 2024 stored, the statistics of 01.01.2024 to
    31.01.2024 count two shifts, where one shift lies in the range; with
    one shift on 20 January 2024 stored, the statistics of 05.01.2024 to
    10.02.2024 are absent, where one shift lies in the range. *)
Theorem get_statistics_selects_by_text :
  map date (shifts Samples.db_two_months) = ["01.02.2024"; "02.01.2024"]
  /\ option_map shift_count
       (get_statistics Samples.db_two_months "01.01.2024" "31.01.2024")
     = Some 2%nat
  /\ (exists jan1 jan2 jan31 feb1,
         strptime_dmY "01.01.2024" = Some jan1
         /\ strptime_dmY "02.01.2024" = Some jan2
         /\ strptime_dmY "31.01.2024" = Some jan31
         /\ strptime_dmY "01.02.2024" = Some feb1
         /\ date_gtb jan1 jan2 = false
         /\ date_gtb jan2 jan31 = false
         /\ date_gtb feb1 jan31 = true)
  /\ map date (shifts Samples.db_late_january) = ["20.01.2024"]
  /\ get_statistics Samples.db_late_january "05.01.2024" "10.02.2024" = None
  /\ (exists jan5 jan20 feb10,
         strptime_dmY "05.01.2024" = Some jan5
         /\ strptime_dmY "20.01.2024" = Some jan20
         /\ strptime_dmY "10.02.2024" = Some feb10
         /\ date_gtb jan5 jan20 = false
         /\ date_gtb jan20 feb10 = false).
Proof.
  split; [reflexivity|]. split; [reflexivity|]. split.
  { do 4 eexists. repeat split; reflexivity. }
  split; [reflexivity|]. split; [reflexivity|].
  do 3 eexists. repeat split; reflexivity.
Qed.





(** The search of the spreadsheet backend is not confined to the column of
    the dates: a date that has no row of its own is found when its text
    stands in another cell. *)
Lemma sheet_search_covers_every_column :
  map (fun row => nth 0 row PyNone)
    (worksheet Samples.sheet_date_in_start_cell)
  = [PyStr "Дата"; PyStr "01.03.2024"]
  /\ Sheets.check_shift_exists Samples.sheet_date_in_start_cell "02.03.2024"
     = true
  /\ find (worksheet Samples.sheet_date_in_start_cell) "02.03.2024"
     = Some (2%nat, 2%nat).
Proof. repeat split; reflexivity. Qed.





(** C1.  [get_profit] of the SQLite backend is absent for a date without a
    record, and for a stored date it is the revenue plus the tips of the
    record, whatever its times are: for the shift of 01.03.2024 from 22:00
    to 06:00 with revenue 1000 and tips 500 it returns 1500, where the
    hours-based formula, and with it the spreadsheet backend, gives 2275. *)
Theorem database_get_profit_is_revenue_plus_tips :
  (forall db date_msg,
      Database.check_shift_exists db date_msg = false ->
      Database.get_profit db date_msg = None)
  /\ (forall db date_msg r,
         fetch_by_date db date_msg = Some r ->
         Database.get_profit db date_msg
         = Some (or_zero (revenue r) + or_zero (tips r)))
  /\ map (fun r => (date r, start_time r, end_time r, revenue r, tips r))
       (shifts Samples.db_march)
     = [("01.03.2024", "22:00", "06:00", Some 1000, Some 500)]
  /\ Database.get_profit Samples.db_march "01.03.2024" = Some 1500
  /\ _calculate_profit (PyStr "22:00") (PyStr "06:00") (PyNum 1000) (PyNum 500)
     == 2275
  /\ (exists p,
         fst (Sheets.get_profit Samples.sheet_march "01.03.2024") = Some p
         /\ p == 2275).
Proof.
  split; [|split; [|split; [|split; [|split]]]].
  - intros db date_msg. unfold Database.check_shift_exists, Database.get_profit.
    destruct (fetch_by_date db date_msg); [discriminate | reflexivity].
  - intros db date_msg r Hr. unfold Database.get_profit. now rewrite Hr.
  - reflexivity.
  - reflexivity.
  - reflexivity.
  - eexists. split; reflexivity.
Qed.

(** What [INSERT OR REPLACE] leaves for its date: one fresh row with the
    default amounts. *)
Lemma add_shift_row_defaults now db date_msg start end_ r :
  In r (shifts (snd (Database.add_shift now db date_msg start end_))) ->
  date r = date_msg ->
  start_time r = start /\ end_time r = end_
  /\ revenue r = Some 0 /\ tips r = Some 0.
Proof.
  simpl. intros Hin Hdate. apply in_app_or in Hin. destruct Hin as [Hin|Hin].
  - apply filter_In in Hin. destruct Hin as [_ Hneq].
    unfold date_is in Hneq. rewrite Hdate, String.eqb_refl in Hneq.
    discriminate.
  - destruct Hin as [<-|[]]. simpl. auto.
Qed.

(** C2.  [add_shift] of the SQLite backend on a date that has a record
    replaces the whole row: the new row has the new times and the default
    revenue and tips, 0.  The record of 01.03.2024 with revenue 1000 and
    tips 500 comes out with revenue 0 and tips 0, where the spreadsheet
    backend keeps 1000 and 500 in its row. *)
Theorem database_add_shift_resets_revenue_and_tips :
  (forall now db date_msg start end_ r,
      In r (shifts (snd (Database.add_shift now db date_msg start end_))) ->
      date r = date_msg ->
      start_time r = start /\ end_time r = end_
      /\ revenue r = Some 0 /\ tips r = Some 0)
  /\ Database.check_shift_exists Samples.db_march "01.03.2024" = true
  /\ map (fun r => (date r, start_time r, end_time r, revenue r, tips r))
       (shifts Samples.db_march)
     = [("01.03.2024", "22:00", "06:00", Some 1000, Some 500)]
  /\ fst (Database.add_shift 103 Samples.db_march "01.03.2024" "10:00" "18:00")
     = true
  /\ map (fun r => (date r, start_time r, end_time r, revenue r, tips r))
       (shifts (snd (Database.add_shift 103 Samples.db_march
                       "01.03.2024" "10:00" "18:00")))
     = [("01.03.2024", "10:00", "18:00", Some 0, Some 0)]
  /\ map (fun row => (nth 0 row PyNone, nth 1 row PyNone, nth 2 row PyNone,
                      nth 3 row PyNone, nth 4 row PyNone))
       (tl (worksheet (snd (Sheets.add_shift Samples.sheet_march
                              "01.03.2024" "10:00" "18:00"))))
     = [(PyStr "01.03.2024", PyStr "10:00", PyStr "18:00",
         PyStr "1000", PyStr "500")].
Proof.
  split; [exact add_shift_row_defaults|].
  repeat split; reflexivity.
Qed.

(** C6.  [get_shifts_in_period] compares and orders the dates as text.  With
    shifts on 1 February 2024 and 2 January 2024 stored, the period from
    01.01.2024 to 31.01.2024 returns both, the February shift first: a shift
    outside the calendar range is returned, and the order is not the order
    of the calendar. *)
Theorem get_shifts_in_period_compares_text :
  map shift_date
    (get_shifts_in_period Samples.db_two_months "01.01.2024" "31.01.2024")
  = ["01.02.2024"; "02.01.2024"]
  /\ (exists feb1 jan2 jan31,
         strptime_dmY "01.02.2024" = Some feb1
         /\ strptime_dmY "02.01.2024" = Some jan2
         /\ strptime_dmY "31.01.2024" = Some jan31
         /\ date_gtb feb1 jan31 = true
         /\ date_gtb feb1 jan2 = true).
Proof.
  split; [reflexivity|].
  do 3 eexists. repeat split; reflexivity.
Qed.

(* ================================================================== *)
(** * The spreadsheet backend *)
(* ================================================================== *)

Lemma nth_tl {A : Type} (k : nat) (l : list A) (d : A) :
  nth k (tl l) d = nth (S k) l d.
Proof. destruct l; [destruct k|]; reflexivity. Qed.

Lemma nth_overwrite_after {A : Type} (vs l : list A) (d : A) (k : nat) :
  (length vs <= k)%nat -> nth k (overwrite vs l) d = nth k l d.
Proof.
  revert l k. induction vs as [|v vs IH]; intros l k Hk; [reflexivity|].
  simpl in Hk. destruct k as [|k]; [lia|].
  simpl. rewrite IH by lia. apply nth_tl.
Qed.

(** Writing a range leaves the cells before and after it. *)
Lemma nth_write_at_other {A : Type} (d : A) (j : nat) (vs l : list A)
  (k : nat) :
  (k < j \/ j + length vs <= k)%nat ->
  nth k (write_at d j vs l) d = nth k l d.
Proof.
  revert l k. induction j as [|j IH]; intros l k Hk; simpl.
  - apply nth_overwrite_after. lia.
  - destruct k as [|k].
    + destruct l; reflexivity.
    + rewrite IH by lia. apply nth_tl.
Qed.

Lemma nth_write_at_row {A : Type} (d x : A) (i : nat) (l : list A) :
  nth i (write_at d i [x] l) d = x.
Proof.
  revert l. induction i as [|i IH]; intros l; simpl; [reflexivity|apply IH].
Qed.

(** Reading a cell of the row that [update] wrote to. *)
Lemma cell_update_row g row col vs k :
  (1 <= row)%nat ->
  cell (update g row col vs) row k
  = nth (k - 1) (write_at PyNone (col - 1) vs (nth (row - 1) g [])) PyNone.
Proof.
  intros Hrow. destruct row as [|i]; [lia|].
  unfold cell, update. replace (S i - 1)%nat with i by lia.
  now rewrite nth_write_at_row.
Qed.

Lemma cell_update_other g row col vs k :
  (1 <= row)%nat ->
  (k - 1 < col - 1 \/ col - 1 + length vs <= k - 1)%nat ->
  cell (update g row col vs) row k = cell g row k.
Proof.
  intros Hrow Hk. rewrite cell_update_row by exact Hrow.
  now rewrite nth_write_at_other.
Qed.

Lemma find_row_positive g query row col :
  find g query = Some (row, col) -> (1 <= row)%nat.
Proof.
  destruct g as [|r g]; simpl; [discriminate|].
  destruct (index_of (cell_is query) r); [intros H; inversion H; lia|].
  destruct (find g query) as [[i c]|]; [|discriminate].
  intros H. inversion H. lia.
Qed.

(** X18.  [add_shift] of the spreadsheet backend on a date that has a row
    succeeds and leaves the revenue and the tips of that row as they were. *)
Lemma sheet_add_shift_keeps_amounts m date_msg start end_ d row col :
  initialized m = true ->
  strptime_dmY date_msg = Some d ->
  times_valid start end_ = true ->
  find (worksheet m) (strftime_dmY d) = Some (row, col) ->
  fst (Sheets.add_shift m date_msg start end_) = true
  /\ cell (worksheet (snd (Sheets.add_shift m date_msg start end_))) row 4
     = cell (worksheet m) row 4
  /\ cell (worksheet (snd (Sheets.add_shift m date_msg start end_))) row 5
     = cell (worksheet m) row 5.
Proof.
  intros Hinit Hd Htimes Hfind.
  pose proof (find_row_positive _ _ _ _ Hfind) as Hrow.
  unfold Sheets.add_shift. rewrite Hinit, Hd, Htimes, Hfind. simpl.
  split; [reflexivity|].
  split; repeat (rewrite cell_update_other; [|exact Hrow|simpl; lia]);
    reflexivity.
Qed.

(* ================================================================== *)
(** * The SQLite backend: records, keys and lookups *)
(* ================================================================== *)

Lemma find_filter_other (date_msg d' : string) (rows : list shift_row) :
  d' <> date_msg ->
  List.find (date_is d')
    (filter (fun r => negb (date_is date_msg r)) rows)
  = List.find (date_is d') rows.
Proof.
  intros Hne. induction rows as [|r rows IH]; simpl; [reflexivity|].
  destruct (date_is date_msg r) eqn:E; destruct (date_is d' r) eqn:E'; simpl;
    rewrite ?E'; try reflexivity; try exact IH.
  unfold date_is in E, E'. apply String.eqb_eq in E, E'. congruence.
Qed.

Lemma find_filter_same (date_msg : string) (rows : list shift_row) :
  List.find (date_is date_msg)
    (filter (fun r => negb (date_is date_msg r)) rows) = None.
Proof.
  induction rows as [|r rows IH]; simpl; [reflexivity|].
  destruct (date_is date_msg r) eqn:E; simpl; [exact IH|].
  now rewrite E.
Qed.

Lemma find_app {A : Type} (p : A -> bool) (l l' : list A) :
  List.find p (l ++ l')
  = match List.find p l with Some x => Some x | None => List.find p l' end.
Proof.
  induction l as [|x l IH]; simpl; [reflexivity|].
  destruct (p x); [reflexivity | exact IH].
Qed.

(** X1.  After [add_shift] the date has a record with the given times and
    zero revenue and tips, stamped with the time of the call, and the record
    of every other date is the one it was. *)
Theorem add_shift_then_lookup (now : Z) (db : database)
  (date_msg start end_ : string) :
  fst (Database.add_shift now db date_msg start end_) = true
  /\ fetch_by_date (snd (Database.add_shift now db date_msg start end_))
       date_msg
     = Some {| id := (last_id db + 1)%Z; date := date_msg;
               start_time := start; end_time := end_;
               revenue := Some 0; tips := Some 0;
               created_at := now; updated_at := now |}
  /\ Database.check_shift_exists
       (snd (Database.add_shift now db date_msg start end_)) date_msg = true
  /\ forall d',
      d' <> date_msg ->
      fetch_by_date (snd (Database.add_shift now db date_msg start end_)) d'
      = fetch_by_date db d'.
Proof.
  assert (Hsame :
    fetch_by_date (snd (Database.add_shift now db date_msg start end_))
      date_msg
    = Some {| id := (last_id db + 1)%Z; date := date_msg;
              start_time := start; end_time := end_;
              revenue := Some 0; tips := Some 0;
              created_at := now; updated_at := now |}).
  { unfold fetch_by_date. simpl. rewrite find_app, find_filter_same. simpl.
    unfold date_is. simpl. now rewrite String.eqb_refl. }
  split; [reflexivity|]. split; [exact Hsame|]. split.
  - unfold Database.check_shift_exists. now rewrite Hsame.
  - intros d' Hne. unfold fetch_by_date. simpl.
    rewrite find_app, (find_filter_other _ _ _ Hne).
    destruct (List.find (date_is d') (shifts db)); [reflexivity|].
    simpl. unfold date_is. simpl.
    destruct (String.eqb_spec date_msg d'); [congruence | reflexivity].
Qed.

Lemma filter_not_date_twice date_msg (rows : list shift_row) (x : shift_row) :
  date x = date_msg ->
  filter (fun r => negb (date_is date_msg r))
    (filter (fun r => negb (date_is date_msg r)) rows ++ [x])
  = filter (fun r => negb (date_is date_msg r)) rows.
Proof.
  intros Hx. rewrite filter_app. simpl.
  unfold date_is at 3. rewrite Hx, String.eqb_refl. simpl.
  rewrite app_nil_r.
  induction rows as [|r rows IH]; simpl; [reflexivity|].
  destruct (negb (date_is date_msg r)) eqn:E; simpl; [|exact IH].
  now rewrite E, IH.
Qed.

(** X2.  A second [add_shift] with the same date and times leaves the
    records as the first one left them, apart from the key of the replaced
    row and its two time stamps. *)
Theorem add_shift_twice (now now' : Z) (db : database)
  (date_msg start end_ : string) :
  map (fun r => (date r, start_time r, end_time r, revenue r, tips r))
    (shifts (snd (Database.add_shift now'
                    (snd (Database.add_shift now db date_msg start end_))
                    date_msg start end_)))
  = map (fun r => (date r, start_time r, end_time r, revenue r, tips r))
      (shifts (snd (Database.add_shift now db date_msg start end_))).
Proof.
  simpl. rewrite filter_not_date_twice by reflexivity.
  now rewrite !map_app.
Qed.

Lemma update_keeps_dates (f : shift_row -> shift_row) date_msg rows :
  (forall r, date (f r) = date r) ->
  map date (fst (execute_update f date_msg rows)) = map date rows.
Proof.
  intros Hf. unfold execute_update. simpl. rewrite map_map.
  apply map_ext. intros r. destruct (date_is date_msg r); [apply Hf|reflexivity].
Qed.

Lemma set_field_date now c text number r :
  date (set_field now c text number r) = date r.
Proof. destruct c; reflexivity. Qed.

Lemma set_field_id now c text number r :
  id (set_field now c text number r) = id r.
Proof. destruct c; reflexivity. Qed.

(** [update_value] neither adds nor removes a row, and it keeps the date and
    the key of every row. *)
Lemma update_value_keeps_keys now db date_msg field value :
  map date (shifts (snd (Database.update_value now db date_msg field value)))
  = map date (shifts db)
  /\ map id (shifts (snd (Database.update_value now db date_msg field value)))
     = map id (shifts db)
  /\ last_id (snd (Database.update_value now db date_msg field value))
     = last_id db.
Proof.
  unfold Database.update_value.
  destruct (dict_get field_mapping (lower field)) as [c|]; [|auto].
  assert (Hrun : forall q,
    let out := (let '(rows, rowcount) :=
                  execute_update (set_field now c value q) date_msg (shifts db) in
                if Nat.eqb rowcount 0 then (false, db)
                else (true, {| shifts := rows; last_id := last_id db |})) in
    map date (shifts (snd out)) = map date (shifts db)
    /\ map id (shifts (snd out)) = map id (shifts db)
    /\ last_id (snd out) = last_id db).
  { intros q. unfold execute_update. simpl.
    destruct (Nat.eqb _ 0); simpl; [auto|].
    rewrite !map_map. repeat split; apply map_ext; intros r;
      destruct (date_is date_msg r);
      auto using set_field_date, set_field_id. }
  destruct (is_numeric c); [|apply Hrun].
  destruct (float value); [apply Hrun | auto].
Qed.

Lemma filter_keeps_distinct {R K : Type} (key : R -> K) (keep : R -> bool)
  (rows : list R) (Hdistinct : NoDup (map key rows)) :
  NoDup (map key (filter keep rows)).
Proof.
  induction rows as [|x rows IH]; simpl in *; [constructor|].
  inversion Hdistinct as [|? ? Hnotin Hrest]; subst.
  destruct (keep x); simpl; [|now apply IH].
  constructor; [|now apply IH].
  intros Hin. apply Hnotin. apply in_map_iff in Hin.
  destruct Hin as (y & Hy & Hin). apply filter_In in Hin.
  apply in_map_iff. exists y. tauto.
Qed.

(** X3.  In every table that the operations produce no two rows have the
    same date, no two rows have the same key, and no key is above the last
    one handed out. *)
Theorem reachable_unique_dates (db : database) :
  reachable db ->
  NoDup (map date (shifts db))
  /\ NoDup (map id (shifts db))
  /\ Forall (fun r => (1 <= id r <= last_id db)%Z) (shifts db)
  /\ (0 <= last_id db)%Z.
Proof.
  induction 1 as [|now db d s e Hr IH|now db d f v Hr IH].
  - simpl. split; [|split; [|split]]; try constructor. discriminate.
  - destruct IH as (Hd & Hi & Hle & H0). simpl.
    assert (Hsub : forall r,
      In r (filter (fun r => negb (date_is d r)) (shifts db)) ->
      In r (shifts db) /\ date r <> d).
    { intros r Hin. apply filter_In in Hin. destruct Hin as [Hin Hneq].
      split; [exact Hin|]. unfold date_is in Hneq.
      destruct (String.eqb_spec (date r) d); [discriminate | assumption]. }
    rewrite Forall_forall in Hle.
    rewrite !map_app. simpl. split; [|split; [|split]]; [| | |lia].
    + apply NoDup_app.
      * now apply filter_keeps_distinct.
      * repeat constructor. intros [].
      * intros x Hin [<-|[]]. apply in_map_iff in Hin.
        destruct Hin as (r & Hx & Hin). apply Hsub in Hin. tauto.
    + apply NoDup_app.
      * now apply filter_keeps_distinct.
      * repeat constructor. intros [].
      * intros x Hin [<-|[]]. apply in_map_iff in Hin.
        destruct Hin as (r & Hx & Hin). apply Hsub in Hin.
        destruct Hin as [Hin _]. apply Hle in Hin. lia.
    + apply Forall_app. split.
      * apply Forall_forall. intros r Hin. apply Hsub in Hin.
        destruct Hin as [Hin _]. apply Hle in Hin. lia.
      * apply Forall_cons; [simpl; lia | apply Forall_nil].
  - destruct IH as (Hd & Hi & Hle & H0).
    destruct (update_value_keeps_keys now db d f v) as (Ed & Ei & El).
    rewrite Ed, Ei, El. split; [|split; [|split]]; try assumption.
    apply Forall_forall. intros r Hin.
    assert (Hid : In (id r) (map id (shifts db))).
    { rewrite <- Ei. now apply in_map. }
    apply in_map_iff in Hid. destruct Hid as (r0 & E0 & Hin0).
    rewrite Forall_forall in Hle. rewrite <- E0. now apply Hle.
Qed.

Lemma reachable_unique_dates_witness :
  NoDup (map date (shifts Samples.db_two_shifts))
  /\ NoDup (map id (shifts Samples.db_two_shifts))
  /\ Forall (fun r => (1 <= id r <= last_id Samples.db_two_shifts)%Z)
       (shifts Samples.db_two_shifts)
  /\ (0 <= last_id Samples.db_two_shifts)%Z.
Proof.
  apply (reachable_unique_dates Samples.db_two_shifts).
  unfold Samples.db_two_shifts.
  do 4 apply reachable_update_value. do 2 apply reachable_add_shift.
  apply reachable_empty.
Defined.

Lemma find_none_length {A : Type} (p : A -> bool) (l : list A) :
  List.find p l = None <-> length (filter p l) = 0%nat.
Proof.
  induction l as [|x l IH]; simpl; [tauto|].
  destruct (p x); simpl; [split; discriminate | exact IH].
Qed.

Lemma find_map_keeping {A : Type} (p : A -> bool) (g : A -> A) (l : list A) :
  (forall x, p (g x) = p x) ->
  List.find p (map g l) = option_map g (List.find p l).
Proof.
  intros Hg. induction l as [|x l IH]; simpl; [reflexivity|].
  rewrite Hg. destruct (p x); [reflexivity | exact IH].
Qed.

(** [update_value] in terms of the row it finds: with a known field and,
    for a numeric field, a value that converts to [q], the answer is
    success exactly when the date has a row. *)
Lemma update_value_run now db date_msg field value c q :
  dict_get field_mapping (lower field) = Some c ->
  (is_numeric c = true -> float value = Some q) ->
  Database.update_value now db date_msg field value
  = if Nat.eqb (length (filter (date_is date_msg) (shifts db))) 0
    then (false, db)
    else (true,
          {| shifts := map (fun r => if date_is date_msg r
                                     then set_field now c value q r else r)
                         (shifts db);
             last_id := last_id db |}).
Proof.
  intros Hc Hq. unfold Database.update_value. rewrite Hc.
  unfold execute_update.
  destruct (is_numeric c) eqn:En.
  - now rewrite (Hq eq_refl).
  - destruct (Nat.eqb _ 0); [reflexivity|].
    do 2 f_equal. apply map_ext. intros r.
    destruct (date_is date_msg r); [|reflexivity].
    destruct c; try discriminate En; reflexivity.
Qed.

(** The labels of the two numeric columns. *)
Lemma numeric_label (key : string) (c : column) :
  dict_get field_mapping key = Some c -> is_numeric c = true ->
  key = "выручка" \/ key = "чай".
Proof.
  unfold field_mapping. cbn [dict_get].
  repeat match goal with
  | |- (if String.eqb ?k key then _ else _) = _ -> _ =>
      destruct (String.eqb_spec k key) as [E|E];
      [intros H Hn; inversion H; subst c; try discriminate Hn; auto | clear E]
  end.
  discriminate.
Qed.

(** On ASCII text that is none of the words, [float] raises exactly when
    the text is no decimal literal. *)
Lemma float_raises_decided (s : string) :
  is_ascii s = true -> names_nonfinite s = false ->
  float_raises s = false <-> float s <> None.
Proof.
  intros Ha Hn. unfold float_raises. rewrite Ha, Hn.
  destruct (float s); simpl; split; congruence.
Qed.

(** X4.  [update_value] of the SQLite backend, for a value that, when the
    field is the revenue or the tips, is ASCII text and none of the words
    [inf], [infinity] and [nan]: the call succeeds exactly when the date has
    a record, the field is one of the four labels (in any case of the
    letters) and, for revenue and tips, [float] does not raise. *)
Theorem update_value_succeeds_iff (now : Z) (db : database)
  (date_msg field value : string) :
  (lower field = "выручка" \/ lower field = "чай" ->
   is_ascii value = true /\ names_nonfinite value = false) ->
  fst (Database.update_value now db date_msg field value) = true
  <-> Database.check_shift_exists db date_msg = true
      /\ exists c,
          dict_get field_mapping (lower field) = Some c
          /\ (is_numeric c = true -> float_raises value = false).
Proof.
  intros Hdom.
  assert (Hmodel :
    fst (Database.update_value now db date_msg field value) = true
    <-> Database.check_shift_exists db date_msg = true
        /\ exists c,
            dict_get field_mapping (lower field) = Some c
            /\ (is_numeric c = true -> float value <> None)).
  {
    unfold Database.check_shift_exists, fetch_by_date.
    pose proof (find_none_length (date_is date_msg) (shifts db)) as Hfl.
    destruct (dict_get field_mapping (lower field)) as [c|] eqn:Ec.
    - destruct (is_numeric c) eqn:En.
      + destruct (float value) as [q|] eqn:Ef.
        * rewrite (update_value_run now db date_msg field value c q Ec)
            by (intros _; exact Ef).
          destruct (Nat.eqb_spec
                      (length (filter (date_is date_msg) (shifts db))) 0)
            as [H0|H0]; simpl.
          -- apply Hfl in H0. rewrite H0. split; [discriminate|].
             intros [H _]. discriminate H.
          -- destruct (List.find (date_is date_msg) (shifts db)) eqn:E.
             ++ split; [|reflexivity]. intros _. split; [reflexivity|].
                exists c. split; [reflexivity|]. intros _. discriminate.
             ++ exfalso. apply H0. now apply Hfl.
        * unfold Database.update_value. rewrite Ec, En, Ef. simpl.
          split; [discriminate|]. intros (_ & c' & Hc' & Hnum).
          inversion Hc'; subst c'. exfalso. now apply (Hnum En).
      + rewrite (update_value_run now db date_msg field value c 0 Ec)
          by (intros H; congruence).
        destruct (Nat.eqb_spec
                    (length (filter (date_is date_msg) (shifts db))) 0)
          as [H0|H0]; simpl.
        * apply Hfl in H0. rewrite H0. split; [discriminate|].
          intros [H _]. discriminate H.
        * destruct (List.find (date_is date_msg) (shifts db)) eqn:E.
          -- split; [|reflexivity]. intros _. split; [reflexivity|].
             exists c. split; [reflexivity|]. intros H. congruence.
          -- exfalso. apply H0. now apply Hfl.
    - unfold Database.update_value. rewrite Ec. simpl.
      split; [discriminate|]. intros (_ & c & Hc & _). discriminate Hc.
  }
  rewrite Hmodel.
  split; intros (Hex & c & Hc & Hnum); (split; [exact Hex|]); exists c;
    (split; [exact Hc|]); intros Hn;
    destruct (Hdom (numeric_label _ _ Hc Hn)) as [Ha Hw];
    apply (float_raises_decided value Ha Hw), Hnum, Hn.
Qed.

Lemma update_value_succeeds_iff_witness :
  fst (Database.update_value 103 Samples.db_march "01.03.2024" "Чай" "12.5")
  = true.
Proof.
  apply (update_value_succeeds_iff 103 Samples.db_march
           "01.03.2024" "Чай" "12.5").
  - intros _. split; reflexivity.
  - split; [reflexivity|].
    exists tips_col. split; [reflexivity|]. intros _. reflexivity.
Defined.

(** When the date has the row [r], the field is known and, for revenue
    and tips, the value converts to [q], [update_value] succeeds; afterwards
    the date has the row [r] with that one column set and the time of the
    call as [updated_at], and every other date has the row it had. *)
Lemma update_value_found (now : Z) (db : database)
  (date_msg field value : string) (r : shift_row) (c : column) (q : Q) :
  fetch_by_date db date_msg = Some r ->
  dict_get field_mapping (lower field) = Some c ->
  (is_numeric c = true -> float value = Some q) ->
  fst (Database.update_value now db date_msg field value) = true
  /\ fetch_by_date (snd (Database.update_value now db date_msg field value))
       date_msg
     = Some (set_field now c value q r)
  /\ forall d',
      d' <> date_msg ->
      fetch_by_date (snd (Database.update_value now db date_msg field value))
        d'
      = fetch_by_date db d'.
Proof.
  intros Hr Hc Hq. unfold fetch_by_date in *.
  rewrite (update_value_run now db date_msg field value c q Hc Hq).
  destruct (Nat.eqb_spec (length (filter (date_is date_msg) (shifts db))) 0)
    as [H0|H0].
  { apply find_none_length in H0. congruence. }
  simpl. split; [reflexivity|].
  assert (Hkeep : forall d' x,
    date_is d' (if date_is date_msg x then set_field now c value q x else x)
    = date_is d' x).
  { intros d' x. destruct (date_is date_msg x); [|reflexivity].
    unfold date_is. now rewrite set_field_date. }
  split.
  - rewrite find_map_keeping by apply Hkeep. rewrite Hr. simpl.
    apply find_some in Hr. destruct Hr as [_ Hd]. now rewrite Hd.
  - intros d' Hne. rewrite find_map_keeping by apply Hkeep.
    destruct (List.find (date_is d') (shifts db)) as [x|] eqn:E;
      [|reflexivity].
    simpl. apply find_some in E. destruct E as [_ Hd].
    unfold date_is in *. apply String.eqb_eq in Hd.
    destruct (String.eqb_spec (date x) date_msg); [congruence | reflexivity].
Qed.

(** X5.  When the date has the row [r], the field is known and, for revenue
    and tips, the value converts to [q], [update_value] succeeds.  Afterwards
    the date has one changed row: the column of the field holds the new
    value, [updated_at] is the time of the call, and the key, the date, the
    time of creation and the three other columns are those of [r]; every
    other date has the row it had. *)
Theorem update_value_then_lookup (now : Z) (db : database)
  (date_msg field value : string) (r : shift_row) (c : column) (q : Q) :
  fetch_by_date db date_msg = Some r ->
  dict_get field_mapping (lower field) = Some c ->
  (is_numeric c = true -> float value = Some q) ->
  exists db' r',
    Database.update_value now db date_msg field value = (true, db')
    /\ fetch_by_date db' date_msg = Some r'
    /\ id r' = id r /\ date r' = date r /\ created_at r' = created_at r
    /\ updated_at r' = now
    /\ start_time r' = (match c with start_time_col => value
                                   | _ => start_time r end)
    /\ end_time r' = (match c with end_time_col => value | _ => end_time r end)
    /\ revenue r' = (match c with revenue_col => Some q | _ => revenue r end)
    /\ tips r' = (match c with tips_col => Some q | _ => tips r end)
    /\ forall d', d' <> date_msg -> fetch_by_date db' d' = fetch_by_date db d'.
Proof.
  intros Hr Hc Hq.
  destruct (update_value_found now db date_msg field value r c q Hr Hc Hq)
    as (Hok & Hrow & Hframe).
  exists (snd (Database.update_value now db date_msg field value)),
         (set_field now c value q r).
  split.
  { destruct (Database.update_value now db date_msg field value) as [ok db'].
    simpl in Hok. now subst ok. }
  split; [exact Hrow|].
  destruct c; repeat split; try reflexivity; exact Hframe.
Qed.

Lemma update_value_then_lookup_witness :
  exists db' r',
    Database.update_value 103 Samples.db_march "01.03.2024" "ВЫРУЧКА" "12.5"
    = (true, db')
    /\ fetch_by_date db' "01.03.2024" = Some r'
    /\ revenue r' = Some 12.5 /\ tips r' = Some 500
    /\ start_time r' = "22:00" /\ updated_at r' = 103%Z.
Proof.
  assert (Er : fetch_by_date Samples.db_march "01.03.2024"
               = Some {| id := 1; date := "01.03.2024";
                         start_time := "22:00"; end_time := "06:00";
                         revenue := Some 1000; tips := Some 500;
                         created_at := 100; updated_at := 102 |})
    by (vm_compute; reflexivity).
  destruct (update_value_then_lookup 103 Samples.db_march
              "01.03.2024" "ВЫРУЧКА" "12.5" _ revenue_col 12.5
              Er eq_refl (fun _ => eq_refl))
    as (db' & r' & Hup & Hrow & _ & _ & _ & Hat & Hst & _ & Hrev & Htips & _).
  exists db', r'. repeat split; assumption.
Defined.

Lemma insert_by_date_sorted r l :
  Sorted (fun a b => String.leb (date a) (date b) = true) l ->
  Sorted (fun a b => String.leb (date a) (date b) = true) (insert_by_date r l).
Proof.
  induction l as [|x l IH]; simpl; intros Hs.
  - repeat constructor.
  - destruct (String.leb (date r) (date x)) eqn:E.
    + constructor; [exact Hs | constructor; exact E].
    + inversion Hs as [|? ? Hl Hhd]; subst.
      constructor; [now apply IH|].
      destruct l as [|y l]; simpl.
      * constructor. destruct (String.leb_total (date r) (date x)); congruence.
      * destruct (String.leb (date r) (date y)).
        -- constructor.
           destruct (String.leb_total (date r) (date x)); congruence.
        -- constructor. now inversion Hhd.
Qed.

Lemma order_by_date_sorted l :
  Sorted (fun a b => String.leb (date a) (date b) = true) (order_by_date l).
Proof.
  induction l as [|r l IH]; simpl; [constructor|].
  now apply insert_by_date_sorted.
Qed.

Lemma Sorted_map {A B : Type} (f : A -> B) (R : B -> B -> Prop) (l : list A) :
  Sorted (fun a b => R (f a) (f b)) l -> Sorted R (map f l).
Proof.
  induction 1 as [|x l Hs IH Hhd]; simpl; constructor; [exact IH|].
  destruct Hhd; simpl; constructor; assumption.
Qed.

(** X6.  The list of [get_shifts_in_period] is in ascending order of the
    date strings, compared as text, and it holds exactly the stored shifts
    whose date string lies between the two bounds as text, a [NULL] revenue
    or tips read as 0. *)
Theorem get_shifts_in_period_sorted_by_text (db : database)
  (start_date end_date : string) :
  Sorted (fun a b => String.leb (shift_date a) (shift_date b) = true)
    (get_shifts_in_period db start_date end_date)
  /\ forall x,
      In x (get_shifts_in_period db start_date end_date)
      <-> exists r,
          In r (shifts db)
          /\ String.leb start_date (date r) = true
          /\ String.leb (date r) end_date = true
          /\ x = {| shift_date := date r; shift_start := start_time r;
                    shift_end := end_time r;
                    shift_revenue := or_zero (revenue r);
                    shift_tips := or_zero (tips r) |}.
Proof.
  unfold get_shifts_in_period. split.
  - apply Sorted_map. simpl. apply order_by_date_sorted.
  - intros x. rewrite in_map_iff. split.
    + intros (r & Hx & Hin).
      apply (Permutation_in _ (order_by_date_perm _)) in Hin.
      apply filter_In in Hin. destruct Hin as [Hin Hb].
      unfold between in Hb. apply andb_true_iff in Hb.
      exists r. unfold shift_of_row in Hx. intuition congruence.
    + intros (r & Hin & H1 & H2 & Hx). exists r. split; [now subst|].
      apply (Permutation_in _ (Permutation_sym (order_by_date_perm _))).
      apply filter_In. split; [exact Hin|].
      unfold between. now rewrite H1, H2.
Qed.

(* ================================================================== *)
(** * The spreadsheet backend: find and update *)
(* ================================================================== *)

Lemma index_of_positive {A : Type} (p : A -> bool) (l : list A) (c : nat) :
  index_of p l = Some c -> (1 <= c)%nat.
Proof.
  destruct l as [|x l]; simpl; [discriminate|].
  destruct (p x); [intros H; inversion H; lia|].
  destruct (index_of p l); simpl; [intros H; inversion H; lia | discriminate].
Qed.

(** Writing to the right of a match leaves the match where it is. *)
Lemma index_of_write_at {A : Type} (p : A -> bool) (d : A) (j : nat)
  (vs l : list A) (c : nat) :
  index_of p l = Some c -> (c <= j)%nat ->
  index_of p (write_at d j vs l) = Some c.
Proof.
  revert l c. induction j as [|j IH]; intros l c Hc Hle.
  - apply index_of_positive in Hc. lia.
  - destruct l as [|x l]; [discriminate|]. simpl in *.
    destruct (p x); [exact Hc|].
    destruct (index_of p l) as [c'|] eqn:E; [|discriminate].
    simpl in Hc. inversion Hc; subst c.
    rewrite (IH l c' E) by lia. reflexivity.
Qed.

Lemma update_cons_next (r : list pyval) (g : grid) (i col : nat)
  (vs : list pyval) :
  update (r :: g) (S (S i)) col vs = r :: update g (S i) col vs.
Proof. reflexivity. Qed.

(** An [update] to the right of the cell that [find] returns does not move
    what [find] returns. *)
Lemma find_update_right (g : grid) (query : string) (row col col' : nat)
  (vs : list pyval) :
  find g query = Some (row, col) -> (col < col')%nat ->
  find (update g row col' vs) query = Some (row, col).
Proof.
  revert row. induction g as [|r g IH]; intros row Hf Hlt; [discriminate|].
  simpl in Hf.
  destruct (index_of (cell_is query) r) as [c|] eqn:Er.
  - inversion Hf; subst. simpl.
    rewrite (index_of_write_at _ _ _ _ _ _ Er) by lia. reflexivity.
  - destruct (find g query) as [[i c]|] eqn:Eg; [|discriminate].
    inversion Hf; subst.
    pose proof (find_row_positive _ _ _ _ Eg) as Hi.
    destruct i as [|i]; [lia|].
    rewrite update_cons_next.
    change (find (r :: update g (S i) col' vs) query)
      with (match index_of (cell_is query) r with
            | Some c0 => Some (1%nat, c0)
            | None =>
                match find (update g (S i) col' vs) query with
                | Some (i0, c0) => Some (S i0, c0)
                | None => None
                end
            end).
    now rewrite Er, (IH (S i) eq_refl Hlt).
Qed.

Lemma find_append (g : grid) (query : string) (r : list pyval) :
  find g query = None ->
  find (g ++ [r])%list query
  = option_map (fun c => (S (length g), c)) (index_of (cell_is query) r).
Proof.
  induction g as [|x g IH]; simpl; intros Hf.
  - destruct (index_of (cell_is query) r); reflexivity.
  - destruct (index_of (cell_is query) x); [discriminate|].
    destruct (find g query) as [[i c]|]; [discriminate|].
    rewrite IH by reflexivity.
    destruct (index_of (cell_is query) r); reflexivity.
Qed.

Lemma cell_append_last (g : grid) (r : list pyval) (k : nat) :
  cell (g ++ [r])%list (S (length g)) k = nth (k - 1) r PyNone.
Proof.
  unfold cell. replace (S (length g) - 1)%nat with (length g) by lia.
  now rewrite nth_middle.
Qed.

(** X8.  In a sheet where a date, when it is there, stands in column A:
    [add_shift] with a date and times that [strptime] accepts succeeds, and
    afterwards [check_shift_exists] holds for the date and its row carries
    the two times in columns B and C. *)
Theorem sheet_add_shift_then_exists (m : manager)
  (date_msg start end_ : string) (d : Py.date) :
  initialized m = true ->
  strptime_dmY date_msg = Some d ->
  times_valid start end_ = true ->
  (forall row col,
      find (worksheet m) (strftime_dmY d) = Some (row, col) -> col = 1%nat) ->
  fst (Sheets.add_shift m date_msg start end_) = true
  /\ Sheets.check_shift_exists (snd (Sheets.add_shift m date_msg start end_))
       date_msg = true
  /\ exists row,
      find (worksheet (snd (Sheets.add_shift m date_msg start end_)))
        (strftime_dmY d) = Some (row, 1%nat)
      /\ cell (worksheet (snd (Sheets.add_shift m date_msg start end_))) row 2
         = PyStr start
      /\ cell (worksheet (snd (Sheets.add_shift m date_msg start end_))) row 3
         = PyStr end_.
Proof.
  intros Hinit Hd Htimes Hcol.
  unfold Sheets.check_shift_exists, Sheets.add_shift.
  rewrite Hinit, Hd, Htimes. cbn [negb].
  destruct (find (worksheet m) (strftime_dmY d)) as [[row col]|] eqn:Ef.
  - pose proof (Hcol row col eq_refl) as ->.
    pose proof (find_row_positive _ _ _ _ Ef) as Hrow.
    cbn [fst snd initialized worksheet negb].
    match goal with
    | |- context [update (update ?g row 2 ?vs) row 7 ?ws] =>
        assert (Hfind : find (update (update g row 2 vs) row 7 ws)
                          (strftime_dmY d) = Some (row, 1%nat))
          by (apply find_update_right; [apply find_update_right|]; auto; lia);
        rewrite Hfind
    end.
    split; [reflexivity|]. split; [reflexivity|].
    exists row. split; [reflexivity|].
    split; (rewrite cell_update_other; [|exact Hrow|simpl; lia]);
      rewrite cell_update_row by exact Hrow; reflexivity.
  - cbn [fst snd initialized worksheet negb].
    unfold append_row. rewrite (find_append _ _ _ Ef).
    cbn [index_of cell_is]. rewrite String.eqb_refl. cbn [option_map].
    split; [reflexivity|]. split; [reflexivity|].
    exists (S (length (worksheet m))). split; [reflexivity|].
    split; rewrite cell_append_last; reflexivity.
Qed.

Lemma sheet_add_shift_then_exists_witness :
  Sheets.check_shift_exists
    (snd (Sheets.add_shift Samples.sheet_header "5.4.2024" "9:00" "17:30"))
    "05.04.2024" = true
  /\ Sheets.check_shift_exists
       (snd (Sheets.add_shift Samples.sheet_march "01.03.2024" "10:00" "18:00"))
       "01.03.2024" = true.
Proof.
  split.
  - assert (Ef : find (worksheet Samples.sheet_header)
                   (strftime_dmY {| year := 2024; month := 4; day := 5 |})
                 = None)
      by (vm_compute; reflexivity).
    destruct (sheet_add_shift_then_exists Samples.sheet_header
                "5.4.2024" "9:00" "17:30"
                {| year := 2024; month := 4; day := 5 |}
                eq_refl eq_refl eq_refl) as (_ & H & _).
    + intros row col H. rewrite Ef in H. discriminate H.
    + unfold Sheets.check_shift_exists in *. exact H.
  - assert (Ef : find (worksheet Samples.sheet_march)
                   (strftime_dmY {| year := 2024; month := 3; day := 1 |})
                 = Some (2%nat, 1%nat))
      by (vm_compute; reflexivity).
    destruct (sheet_add_shift_then_exists Samples.sheet_march
                "01.03.2024" "10:00" "18:00"
                {| year := 2024; month := 3; day := 1 |}
                eq_refl eq_refl eq_refl) as (_ & H & _).
    + intros row col H. rewrite Ef in H. inversion H. reflexivity.
    + exact H.
Defined.

(* ================================================================== *)
(** * The conversation: input cleaning and report splitting *)
(* ================================================================== *)

Import Dialogue.

Lemma in_range_spec (lo hi : Z) (c : ascii) :
  in_range lo hi c = true <-> (lo <= Z.of_nat (nat_of_ascii c) <= hi)%Z.
Proof.
  unfold in_range. cbv zeta. rewrite andb_true_iff, !Z.leb_le. tauto.
Qed.

Lemma is_space_spec (a : ascii) :
  is_space a = true -> (Z.of_nat (nat_of_ascii a) <= 32)%Z.
Proof.
  unfold is_space. rewrite orb_true_iff, !in_range_spec. lia.
Qed.

Lemma two_byte_space_spec (a b : ascii) :
  two_byte_space a b = true ->
  (Z.of_nat (nat_of_ascii a) = 194)%Z /\ continuation b = true.
Proof.
  unfold two_byte_space, continuation.
  rewrite andb_true_iff, orb_true_iff, !in_range_spec. lia.
Qed.

Lemma three_byte_space_spec (a b c : ascii) :
  three_byte_space a b c = true ->
  (225 <= Z.of_nat (nat_of_ascii a) <= 227)%Z
  /\ continuation b = true /\ continuation c = true.
Proof.
  unfold three_byte_space, continuation.
  rewrite !orb_true_iff, !andb_true_iff, !orb_true_iff, !in_range_spec. lia.
Qed.

Lemma continuation_spec (x : ascii) :
  continuation x = true <-> (128 <= Z.of_nat (nat_of_ascii x) <= 191)%Z.
Proof. apply in_range_spec. Qed.

(** A continuation byte begins no white-space character. *)
Lemma space_width_continuation (x : ascii) (r : string) :
  continuation x = true -> space_width (String x r) = 0%nat.
Proof.
  intros Hx. apply continuation_spec in Hx. cbn [space_width].
  destruct (is_space x) eqn:E1; [apply is_space_spec in E1; lia|].
  destruct r as [|b r]; [reflexivity|].
  destruct (two_byte_space x b) eqn:E2;
    [apply two_byte_space_spec in E2; lia|].
  destruct r as [|c r]; [reflexivity|].
  destruct (three_byte_space x b c) eqn:E3;
    [apply three_byte_space_spec in E3; lia | reflexivity].
Qed.

(** The width is read off the bytes it counts: what follows them does not
    matter. *)
Lemma space_width_app_zero (p q : string) :
  space_width (p ++ q) = 0%nat -> space_width p = 0%nat.
Proof.
  destruct p as [|a [|b [|c p]]]; cbn [append space_width];
    try reflexivity.
  - destruct (is_space a); [discriminate | reflexivity].
  - destruct (is_space a); [discriminate|].
    destruct (two_byte_space a b); [discriminate | reflexivity].
  - tauto.
Qed.

(** A white-space character is not completed by a byte that begins a
    character. *)
Lemma space_width_before_lead (p : string) (x : ascii) (r : string) :
  p <> "" -> space_width p = 0%nat -> continuation x = false ->
  space_width (p ++ String x r) = 0%nat.
Proof.
  intros Hp Hw Hx.
  destruct p as [|a [|b [|c p]]]; [congruence| | |];
    cbn [append space_width] in *.
  - destruct (is_space a); [discriminate|].
    destruct (two_byte_space a x) eqn:E2;
      [apply two_byte_space_spec in E2; destruct E2; congruence|].
    destruct r as [|c r]; [reflexivity|].
    destruct (three_byte_space a x c) eqn:E3; [|reflexivity].
    apply three_byte_space_spec in E3. destruct E3 as (_ & E3 & _).
    congruence.
  - destruct (is_space a); [discriminate|].
    destruct (two_byte_space a b); [discriminate|].
    destruct (three_byte_space a b x) eqn:E3; [|reflexivity].
    apply three_byte_space_spec in E3. destruct E3 as (_ & _ & E3).
    congruence.
  - exact Hw.
Qed.

(** The first byte of a white-space character begins a character. *)
Lemma space_width_lead (x : ascii) (r : string) :
  space_width (String x r) <> 0%nat -> continuation x = false.
Proof.
  intros Hw. destruct (continuation x) eqn:E; [|reflexivity].
  now rewrite (space_width_continuation x r E) in Hw.
Qed.

Lemma lstrip_no_space (s : string) : space_width s = 0%nat -> lstrip s = s.
Proof.
  intros Hw. destruct s as [|c r]; [reflexivity|].
  unfold lstrip. cbn [lstrip_from]. now rewrite Hw.
Qed.

Lemma rstrip_continuation (x : ascii) (r : string) :
  continuation x = true -> rstrip (String x r) = String x (rstrip r).
Proof.
  intros Hx. cbn [rstrip].
  now rewrite (lstrip_no_space _ (space_width_continuation x r Hx)).
Qed.

Lemma rstrip_prefix (s : string) : exists rest, s = rstrip s ++ rest.
Proof.
  induction s as [|c r [rest IH]]; [now exists ""|].
  cbn [rstrip]. destruct (String.eqb (lstrip (String c r)) "").
  - now exists (String c r).
  - exists rest. cbn [append]. now rewrite <- IH.
Qed.

Lemma take_token_prefix (s : string) : exists rest, s = take_token s ++ rest.
Proof.
  induction s as [|c r [rest IH]]; [now exists ""|].
  cbn [take_token]. destruct (space_width (String c r)).
  - exists rest. cbn [append]. now rewrite <- IH.
  - now exists (String c r).
Qed.

(** Cutting the white space off the end does not change the first word. *)
Lemma take_token_rstrip (s : string) : take_token (rstrip s) = take_token s.
Proof.
  induction s as [|c r IH]; [reflexivity|].
  cbn [rstrip].
  destruct (String.eqb_spec (lstrip (String c r)) "") as [Hall|Hsome].
  - cbn [take_token].
    destruct (space_width (String c r)) eqn:Hw; [|reflexivity].
    rewrite lstrip_no_space in Hall by exact Hw. discriminate.
  - destruct (space_width (String c r)) eqn:Hw.
    + cbn [take_token]. rewrite Hw.
      destruct (rstrip_prefix r) as [rest Hr].
      rewrite (space_width_app_zero (String c (rstrip r)) rest), IH;
        [reflexivity|].
      cbn [append]. now rewrite <- Hr.
    + assert (Hkeep : space_width (String c (rstrip r)) <> 0%nat).
      { destruct (is_space c) eqn:E1.
        { cbn [space_width]. rewrite E1. discriminate. }
        destruct r as [|b r];
          [cbn [space_width] in Hw; rewrite E1 in Hw; discriminate|].
        destruct (two_byte_space c b) eqn:E2.
        { rewrite rstrip_continuation
            by (apply two_byte_space_spec in E2; tauto).
          cbn [space_width]. rewrite E1, E2. discriminate. }
        destruct r as [|d r];
          [cbn [space_width] in Hw; rewrite E1, E2 in Hw; discriminate|].
        destruct (three_byte_space c b d) eqn:E3;
          [|cbn [space_width] in Hw; rewrite E1, E2, E3 in Hw; discriminate].
        pose proof (three_byte_space_spec _ _ _ E3) as (_ & Hb & Hd).
        rewrite (rstrip_continuation b _ Hb), (rstrip_continuation d _ Hd).
        cbn [space_width]. rewrite E1, E2, E3. discriminate. }
      cbn [take_token]. rewrite Hw.
      destruct (space_width (String c (rstrip r))); [congruence|reflexivity].
Qed.

(** The cleaned input is the first run of characters without white space. *)
Lemma clean_user_input_token (text : string) :
  clean_user_input text = take_token (lstrip text).
Proof.
  unfold clean_user_input, strip.
  destruct (String.eqb_spec text "") as [->|_]; [reflexivity|].
  apply take_token_rstrip.
Qed.

Lemma spaceless_take_token (s : string) : spaceless (take_token s) = true.
Proof.
  induction s as [|c r IH]; [reflexivity|].
  cbn [take_token]. destruct (space_width (String c r)) eqn:Hw; [|reflexivity].
  cbn [spaceless]. rewrite IH, andb_true_r. apply Nat.eqb_eq.
  destruct (take_token_prefix r) as [rest Hr].
  apply (space_width_app_zero _ rest). cbn [append]. now rewrite <- Hr.
Qed.

Lemma take_token_spaceless (word : string) :
  spaceless word = true -> take_token word = word.
Proof.
  induction word as [|c r IH]; [reflexivity|].
  cbn [spaceless take_token]. intros H. apply andb_true_iff in H.
  destruct H as [Hw Hr]. apply Nat.eqb_eq in Hw. rewrite Hw.
  now rewrite IH.
Qed.

Lemma lstrip_spaceless (word : string) :
  spaceless word = true -> lstrip word = word.
Proof.
  destruct word as [|c r]; [reflexivity|].
  cbn [spaceless]. intros H. apply andb_true_iff in H.
  destruct H as [Hw _]. apply Nat.eqb_eq in Hw.
  now apply lstrip_no_space.
Qed.

(** The first word of a word followed by a white-space character is the
    word. *)
Lemma take_token_word_then_space (word rest : string) :
  spaceless word = true -> space_width rest <> 0%nat ->
  take_token (word ++ rest) = word.
Proof.
  intros Hword Hrest.
  destruct rest as [|x rest]; [now cbn in Hrest|].
  pose proof (space_width_lead x rest Hrest) as Hx.
  induction word as [|c r IH].
  - cbn [append take_token].
    destruct (space_width (String x rest)); [congruence | reflexivity].
  - cbn [spaceless] in Hword. apply andb_true_iff in Hword.
    destruct Hword as [Hw Hr]. apply Nat.eqb_eq in Hw.
    cbn [append take_token].
    change (String c (r ++ String x rest))
      with (String c r ++ String x rest).
    rewrite space_width_before_lead by (discriminate || assumption).
    now rewrite IH.
Qed.

(** The bytes of a white-space character at the head of a text are skipped
    by [lstrip]. *)
Lemma lstrip_space (w text : string) :
  w <> "" -> space_width w = String.length w ->
  lstrip (w ++ text) = lstrip text.
Proof.
  intros Hne Hw. unfold lstrip.
  destruct w as [|a [|b [|c [|d w]]]]; [congruence| | | |];
    cbn [space_width String.length] in Hw; cbn [append lstrip_from space_width].
  - destruct (is_space a); [reflexivity | discriminate].
  - destruct (is_space a); [discriminate|].
    destruct (two_byte_space a b); [reflexivity | discriminate].
  - destruct (is_space a); [discriminate|].
    destruct (two_byte_space a b); [discriminate|].
    destruct (three_byte_space a b c); [reflexivity | discriminate].
  - exfalso. destruct (is_space a); [discriminate|].
    destruct (two_byte_space a b); [discriminate|].
    destruct (three_byte_space a b c); discriminate.
Qed.

Lemma space_width_app (w text : string) :
  space_width w <> 0%nat -> space_width (w ++ text) <> 0%nat.
Proof.
  intros Hw H. now apply space_width_app_zero in H.
Qed.

(** X10.  [clean_user_input] keeps the first word of the text, white space
    being that of [str.isspace]: no white-space character begins anywhere in
    the result; a white-space character before the word is skipped;
    everything from the first white-space character after the word is
    dropped; a text without white space is returned as it is; and cleaning
    twice is cleaning once. *)
Theorem clean_user_input_first_word :
  (forall text, spaceless (clean_user_input text) = true)
  /\ (forall w text,
         w <> "" -> space_width w = String.length w ->
         clean_user_input (w ++ text) = clean_user_input text)
  /\ (forall word w rest,
         word <> "" -> spaceless word = true ->
         w <> "" -> space_width w = String.length w ->
         clean_user_input (word ++ w ++ rest) = word)
  /\ (forall word, spaceless word = true -> clean_user_input word = word)
  /\ (forall text,
         clean_user_input (clean_user_input text) = clean_user_input text).
Proof.
  assert (Hclean : forall text, spaceless (clean_user_input text) = true).
  { intros text. rewrite clean_user_input_token. apply spaceless_take_token. }
  assert (Hword : forall word,
    spaceless word = true -> clean_user_input word = word).
  { intros word Hw. rewrite clean_user_input_token, lstrip_spaceless by exact Hw.
    now apply take_token_spaceless. }
  split; [exact Hclean|]. split; [|split; [|split]].
  - intros w text Hne Hw.
    now rewrite !clean_user_input_token, lstrip_space.
  - intros word w rest Hne Hword' Hw0 Hw.
    rewrite clean_user_input_token.
    assert (Hrest : space_width (w ++ rest) <> 0%nat).
    { apply space_width_app. rewrite Hw. now destruct w. }
    destruct (w ++ rest) as [|x r] eqn:E; [now cbn in Hrest|].
    pose proof (space_width_lead x r Hrest) as Hx.
    rewrite lstrip_no_space.
    + now apply take_token_word_then_space.
    + destruct word as [|c word]; [congruence|].
      apply space_width_before_lead; [discriminate| |exact Hx].
      cbn [spaceless] in Hword'. apply andb_true_iff in Hword'.
      destruct Hword' as [H0 _]. now apply Nat.eqb_eq in H0.
  - exact Hword.
  - intros text. apply Hword, Hclean.
Qed.

Lemma clean_user_input_first_word_witness :
  clean_user_input ("01.03.2024" ++ " " ++ "12:45") = "01.03.2024"
  /\ clean_user_input
       ("5" ++ String (ascii_of_nat 194) (String (ascii_of_nat 160) "")
            ++ "000") = "5".
Proof.
  destruct clean_user_input_first_word as (_ & _ & Hword & _).
  split; apply Hword; solve [discriminate | reflexivity].
Defined.

Lemma concat_slices {A : Type} (n m : nat) (l : list A) :
  (length l <= m * n)%nat ->
  concat (map (fun i => firstn n (skipn i l))
            (map (fun k => k * n)%nat (seq 0 m))) = l.
Proof.
  revert l. induction m as [|m IH]; intros l Hlen.
  - destruct l; [reflexivity | simpl in Hlen; lia].
  - cbn [seq]. rewrite <- seq_shift. cbn [map concat].
    change (0 * n)%nat with 0%nat. cbn [skipn].
    transitivity (firstn n l ++ skipn n l)%list; [|apply firstn_skipn].
    f_equal.
    transitivity (concat (map (fun i => firstn n (skipn i (skipn n l)))
                            (map (fun k => k * n)%nat (seq 0 m)))).
    + f_equal. rewrite !map_map. apply map_ext. intros k.
      rewrite skipn_skipn. do 2 f_equal. lia.
    + apply IH. rewrite length_skipn. lia.
Qed.

Lemma range_step_covers (len n : nat) :
  (0 < n)%nat -> (len <= (len + n - 1) / n * n)%nat.
Proof.
  intros Hn.
  pose proof (Nat.div_mod_eq (len + n - 1) n) as Hdm.
  pose proof (Nat.mod_upper_bound (len + n - 1) n) as Hmod.
  nia.
Qed.

Lemma range_step_below (len n k : nat) :
  (0 < n)%nat -> In k (range_step len n) -> (k < len)%nat.
Proof.
  intros Hn Hin. unfold range_step in Hin. apply in_map_iff in Hin.
  destruct Hin as (j & <- & Hj). apply in_seq in Hj.
  pose proof (Nat.div_mod_eq (len + n - 1) n) as Hdm.
  pose proof (Nat.mod_upper_bound (len + n - 1) n) as Hmod.
  nia.
Qed.

(** The slices of a list at the multiples of [n]. *)
Lemma slices_partition {A : Type} (n : nat) (l : list A) :
  (0 < n)%nat ->
  concat (map (fun i => firstn n (skipn i l)) (range_step (length l) n)) = l
  /\ Forall (fun part => (1 <= length part <= n)%nat)
       (map (fun i => firstn n (skipn i l)) (range_step (length l) n)).
Proof.
  intros Hn. split.
  - unfold range_step. apply concat_slices. now apply range_step_covers.
  - apply Forall_forall. intros part Hin. apply in_map_iff in Hin.
    destruct Hin as (i & <- & Hi). apply (range_step_below _ _ _ Hn) in Hi.
    rewrite length_firstn, length_skipn. lia.
Qed.

(** X11.  The messages of an export, put together, are the text of the
    report, nothing lost and nothing repeated; no message is longer than
    4000 characters; and no message of a text that is not empty is empty. *)
Theorem export_messages_partition {A : Type} (export_text : list A) :
  concat (export_messages export_text) = export_text
  /\ Forall (fun part => (length part <= 4000)%nat)
       (export_messages export_text)
  /\ (export_text <> [] ->
      Forall (fun part => part <> []) (export_messages export_text)).
Proof.
  unfold export_messages.
  destruct (Nat.ltb_spec 4000 (length export_text)) as [Hlong|Hshort].
  - destruct (slices_partition 4000 export_text) as [Hcat Hlen]; [lia|].
    split; [exact Hcat|]. split.
    + eapply Forall_impl; [|exact Hlen]. intros part Hp. simpl in Hp. lia.
    + intros _. eapply Forall_impl; [|exact Hlen].
      intros part [Hp _] ->. simpl in Hp. lia.
  - split; [apply app_nil_r|]. split.
    + apply Forall_cons; [exact Hshort | apply Forall_nil].
    + intros Hne. apply Forall_cons; [exact Hne | apply Forall_nil].
Qed.

(* ================================================================== *)
(** * The conversation: the flows that write to the store *)
(* ================================================================== *)

Lemma dict_get_update_data_same key value c :
  dict_get (data (update_data key value c)) key = Some value.
Proof. simpl. now rewrite String.eqb_refl. Qed.

Lemma dict_get_filter_other (d : list (string * string)) (key k : string) :
  k <> key ->
  dict_get (filter (fun kv => negb (String.eqb (fst kv) key)) d) k
  = dict_get d k.
Proof.
  intros Hne. induction d as [|[k' v'] d IH]; simpl; [reflexivity|].
  destruct (String.eqb_spec k' key) as [->|Hk]; simpl.
  - destruct (String.eqb_spec key k); [congruence | exact IH].
  - destruct (String.eqb k' k); [reflexivity | exact IH].
Qed.

Lemma dict_get_update_data_other key value c k :
  k <> key ->
  dict_get (data (update_data key value c)) k = dict_get (data c) k.
Proof.
  intros Hne. simpl.
  destruct (String.eqb_spec key k); [congruence|].
  now apply dict_get_filter_other.
Qed.

(** What [process_end] does in a context that holds the date and the start
    of the shift. *)
Lemma process_end_run (store : Type)
  (add_shift : store -> string -> string -> string -> bool * store)
  (s : store) (c : FSMContext) (text date_msg start : string)
  (t : time_of_day) :
  dict_get (data c) "date" = Some date_msg ->
  dict_get (data c) "start" = Some start ->
  strptime_HM (clean_user_input text) = Some t ->
  process_end store add_shift s c text
  = Some (snd (add_shift s date_msg start (clean_user_input text)), clear,
          if fst (add_shift s date_msg start (clean_user_input text))
          then ShiftAdded date_msg start (clean_user_input text)
          else AddFailed).
Proof.
  intros Hd Hs Ht. unfold process_end. rewrite Hd, Hs, Ht.
  now destruct (add_shift s date_msg start (clean_user_input text)).
Qed.

(** X12.  The add-shift conversation, from the date to the end time.  With a
    date and two times that [strptime] accepts, and with a word of consent
    when the date has a shift already, the three or four handlers end in
    one call of the store's [add_shift] with the cleaned date and times, in
    a cleared context, and answer by the result of that call; the store is
    not written to before. *)
Theorem add_shift_flow (store : Type)
  (add_shift : store -> string -> string -> string -> bool * store)
  (check_shift_exists : store -> string -> bool)
  (s : store) (c : FSMContext)
  (date_text confirm_text start_text end_text : string)
  (d : Py.date) (t1 t2 : time_of_day) :
  strptime_dmY (clean_user_input date_text) = Some d ->
  strptime_HM (clean_user_input start_text) = Some t1 ->
  strptime_HM (clean_user_input end_text) = Some t2 ->
  (check_shift_exists s (clean_user_input date_text) = true ->
   among ["да"; "yes"; "y"; "д"] (lower (clean_user_input confirm_text))
   = true) ->
  state (fst (process_date store check_shift_exists s c date_text))
  = Some (if check_shift_exists s (clean_user_input date_text)
          then waiting_for_overwrite_confirm else waiting_for_start)
  /\ process_end store add_shift s
       (fst (process_start
               (if check_shift_exists s (clean_user_input date_text)
                then fst (process_overwrite_confirm
                            (fst (process_date store check_shift_exists
                                    s c date_text))
                            confirm_text)
                else fst (process_date store check_shift_exists s c date_text))
               start_text))
       end_text
     = Some (snd (add_shift s (clean_user_input date_text)
                    (clean_user_input start_text) (clean_user_input end_text)),
             clear,
             if fst (add_shift s (clean_user_input date_text)
                       (clean_user_input start_text)
                       (clean_user_input end_text))
             then ShiftAdded (clean_user_input date_text)
                    (clean_user_input start_text) (clean_user_input end_text)
             else AddFailed).
Proof.
  intros Hd Ht1 Ht2 Hyes.
  unfold process_date. rewrite Hd.
  destruct (check_shift_exists s (clean_user_input date_text)) eqn:Ex.
  - split; [reflexivity|].
    unfold process_overwrite_confirm. rewrite (Hyes eq_refl).
    unfold process_start. rewrite Ht1. cbn [fst].
    apply (process_end_run _ _ _ _ _ _ _ t2); [| |exact Ht2].
    + cbn [set_state data].
      rewrite dict_get_update_data_other by discriminate.
      apply dict_get_update_data_same.
    + apply dict_get_update_data_same.
  - split; [reflexivity|].
    unfold process_start. rewrite Ht1. cbn [fst].
    apply (process_end_run _ _ _ _ _ _ _ t2); [| |exact Ht2].
    + cbn [set_state data].
      rewrite dict_get_update_data_other by discriminate.
      apply dict_get_update_data_same.
    + apply dict_get_update_data_same.
Qed.

Lemma add_shift_flow_witness :
  process_end database (Database.add_shift 400) Samples.db_march
    (fst (process_start
            (fst (process_overwrite_confirm
                    (fst (process_date database Database.check_shift_exists
                            Samples.db_march clear "01.03.2024"))
                    "ДА"))
            "10:00 x"))
    "18:30"
  = Some (snd (Database.add_shift 400 Samples.db_march
                 "01.03.2024" "10:00" "18:30"),
          clear, ShiftAdded "01.03.2024" "10:00" "18:30").
Proof.
  assert (Ex : Database.check_shift_exists Samples.db_march
                 (clean_user_input "01.03.2024") = true)
    by (vm_compute; reflexivity).
  destruct (add_shift_flow database (Database.add_shift 400)
              Database.check_shift_exists Samples.db_march clear
              "01.03.2024" "ДА" "10:00 x" "18:30"
              {| year := 2024; month := 3; day := 1 |}
              {| hour := 10; minute := 0 |} {| hour := 18; minute := 30 |}
              eq_refl eq_refl eq_refl (fun _ => eq_refl)) as [_ H].
  rewrite Ex in H. exact H.
Defined.

Lemma float_raises_some (s : string) (q : Q) :
  float s = Some q -> float_raises s = false.
Proof. intros H. unfold float_raises. rewrite H. apply andb_false_r. Qed.

Lemma check_shift_exists_found (db : database) (date_msg : string)
  (r : shift_row) :
  fetch_by_date db date_msg = Some r ->
  Database.check_shift_exists db date_msg = true.
Proof. intros H. unfold Database.check_shift_exists. now rewrite H. Qed.

(** The revenue and the tips conversation on the SQLite backend, for a date
    that has the row [r] and an amount that converts to [q]. *)
Lemma amount_flow_found (now : Z) (db : database) (c : FSMContext)
  (key field : string) (next : Form) (ask : reply) (col : column)
  (date_text amount_text : string) (r : shift_row) (q : Q) :
  dict_get field_mapping (lower field) = Some col ->
  fetch_by_date db (clean_user_input date_text) = Some r ->
  float (clean_user_input amount_text) = Some q ->
  process_known_date database Database.check_shift_exists key next ask
    db c date_text
  = (set_state next (update_data key (clean_user_input date_text) c), ask)
  /\ process_amount database (Database.update_value now) key field db
       (set_state next (update_data key (clean_user_input date_text) c))
       amount_text
     = Some (snd (Database.update_value now db (clean_user_input date_text)
                    field (clean_user_input amount_text)),
             clear,
             AmountSaved (clean_user_input amount_text)
               (clean_user_input date_text))
  /\ fetch_by_date
       (snd (Database.update_value now db (clean_user_input date_text)
               field (clean_user_input amount_text)))
       (clean_user_input date_text)
     = Some (set_field now col (clean_user_input amount_text) q r).
Proof.
  intros Hcol Hr Hq.
  destruct (update_value_found now db _ field _ r col q Hr Hcol
              (fun _ => Hq)) as (Hok & Hrow & _).
  split; [|split].
  - unfold process_known_date.
    now rewrite (check_shift_exists_found _ _ _ Hr).
  - unfold process_amount. cbn [set_state data].
    rewrite dict_get_update_data_same, (float_raises_some _ _ Hq).
    destruct (Database.update_value now db (clean_user_input date_text)
                field (clean_user_input amount_text)) as [ok db'].
    simpl in Hok. now subst ok.
  - exact Hrow.
Qed.

(** X13.  The revenue and the tips conversations on the SQLite backend.  For
    a date that has a record and an amount that is the decimal literal of
    the number [q], the two handlers of either conversation end in a cleared
    context with the answer that the amount is saved, and the record of the
    date then holds [q] as its revenue, or as its tips, with the other
    amount and the times as they were.  An amount that is ASCII text and
    that [float] rejects is answered with the format error and leaves the
    store as it was. *)
Theorem amount_flow_database (now : Z) (db : database) (c : FSMContext)
  (date_text amount_text : string) (r : shift_row) :
  fetch_by_date db (clean_user_input date_text) = Some r ->
  (forall q,
      float (clean_user_input amount_text) = Some q ->
      exists db' r',
        process_revenue database (Database.update_value now) db
          (fst (process_revenue_date database Database.check_shift_exists
                  db c date_text))
          amount_text
        = Some (db', clear,
                AmountSaved (clean_user_input amount_text)
                  (clean_user_input date_text))
        /\ fetch_by_date db' (clean_user_input date_text) = Some r'
        /\ revenue r' = Some q /\ tips r' = tips r
        /\ start_time r' = start_time r /\ end_time r' = end_time r)
  /\ (forall q,
         float (clean_user_input amount_text) = Some q ->
         exists db' r',
           process_tips database (Database.update_value now) db
             (fst (process_tips_date database Database.check_shift_exists
                     db c date_text))
             amount_text
           = Some (db', clear,
                   AmountSaved (clean_user_input amount_text)
                     (clean_user_input date_text))
           /\ fetch_by_date db' (clean_user_input date_text) = Some r'
           /\ tips r' = Some q /\ revenue r' = revenue r
           /\ start_time r' = start_time r /\ end_time r' = end_time r)
  /\ (float_raises (clean_user_input amount_text) = true ->
      process_revenue database (Database.update_value now) db
        (fst (process_revenue_date database Database.check_shift_exists
                db c date_text))
        amount_text
      = Some (db, clear, WrongNumber)
      /\ process_tips database (Database.update_value now) db
           (fst (process_tips_date database Database.check_shift_exists
                   db c date_text))
           amount_text
         = Some (db, clear, WrongNumber)).
Proof.
  intros Hr. split; [|split].
  - intros q Hq.
    destruct (amount_flow_found now db c "revenue_date" "выручка"
                waiting_for_revenue AskAmount revenue_col
                date_text amount_text r q eq_refl Hr Hq)
      as (Hdate & Hamount & Hrow).
    unfold process_revenue, process_revenue_date. rewrite Hdate. cbn [fst].
    do 2 eexists. split; [exact Hamount|]. split; [exact Hrow|].
    repeat split.
  - intros q Hq.
    destruct (amount_flow_found now db c "tips_date" "чай"
                waiting_for_tips AskAmount tips_col
                date_text amount_text r q eq_refl Hr Hq)
      as (Hdate & Hamount & Hrow).
    unfold process_tips, process_tips_date. rewrite Hdate. cbn [fst].
    do 2 eexists. split; [exact Hamount|]. split; [exact Hrow|].
    repeat split.
  - intros Hraise.
    unfold process_revenue, process_revenue_date, process_tips,
      process_tips_date, process_known_date, process_amount.
    rewrite (check_shift_exists_found _ _ _ Hr). cbn [negb fst set_state data].
    rewrite !dict_get_update_data_same, Hraise. split; reflexivity.
Qed.

Lemma amount_flow_database_witness :
  exists db' r',
    process_revenue database (Database.update_value 500) Samples.db_shift
      (fst (process_revenue_date database Database.check_shift_exists
              Samples.db_shift clear "01.03.2024"))
      "7350.50"
    = Some (db', clear, AmountSaved "7350.50" "01.03.2024")
    /\ fetch_by_date db' "01.03.2024" = Some r'
    /\ revenue r' = Some 7350.50.
Proof.
  assert (Er : fetch_by_date Samples.db_shift (clean_user_input "01.03.2024")
               = Some {| id := 1; date := "01.03.2024";
                         start_time := "22:00"; end_time := "06:00";
                         revenue := Some 0; tips := Some 0;
                         created_at := 100; updated_at := 100 |})
    by (vm_compute; reflexivity).
  destruct (proj1 (amount_flow_database 500 Samples.db_shift clear
                     "01.03.2024" "7350.50" _ Er) 7350.50 eq_refl)
    as (db' & r' & Hflow & Hrow & Hrev & _).
  exists db', r'. split; [exact Hflow|]. split; [exact Hrow | exact Hrev].
Defined.

Lemma among_cases (words : list string) (x : string) :
  among words x = true -> In x words.
Proof.
  unfold among. intros H. apply existsb_exists in H.
  destruct H as (w & Hin & Heq). apply String.eqb_eq in Heq. now subst.
Qed.

(** X14.  The edit conversation lets through four field names only, in any
    case of the letters, and hands them on in lower case; the SQLite backend
    maps each of them to a column.  Any other word clears the context. *)
Theorem process_edit_field_known (c : FSMContext) (text : string) :
  (among ["чай"; "начало"; "конец"; "выручка"]
     (lower (clean_user_input text)) = true ->
   process_edit_field c text
   = (set_state waiting_for_edit_value
        (update_data "edit_field" (lower (clean_user_input text)) c),
      AskValue (lower (clean_user_input text)))
   /\ (exists col,
          dict_get field_mapping (lower (lower (clean_user_input text)))
          = Some col))
  /\ (among ["чай"; "начало"; "конец"; "выручка"]
        (lower (clean_user_input text)) = false ->
      process_edit_field c text = (clear, NoSuchField)).
Proof.
  unfold process_edit_field. split; intros H; rewrite H; [|reflexivity].
  split; [reflexivity|].
  apply among_cases in H.
  destruct H as [<-|[<-|[<-|[<-|[]]]]]; eexists; vm_compute; reflexivity.
Qed.

Lemma process_edit_field_known_witness :
  process_edit_field clear "Выручка 12:00"
  = (set_state waiting_for_edit_value
       (update_data "edit_field" "выручка" clear), AskValue "выручка")
  /\ process_edit_field clear
       ("ЧАЙ" ++ String (ascii_of_nat 194) (String (ascii_of_nat 160) "5"))
     = (set_state waiting_for_edit_value
          (update_data "edit_field" "чай" clear), AskValue "чай")
  /\ process_edit_field clear "часы" = (clear, NoSuchField).
Proof.
  split; [|split].
  - apply (proj1 (process_edit_field_known clear "Выручка 12:00")).
    vm_compute. reflexivity.
  - apply (proj1 (process_edit_field_known clear
                    ("ЧАЙ" ++ String (ascii_of_nat 194)
                                (String (ascii_of_nat 160) "5")))).
    vm_compute. reflexivity.
  - apply (proj2 (process_edit_field_known clear "часы")).
    vm_compute. reflexivity.
Defined.

(** X15.  The profit conversation on the SQLite backend, for a table of
    finite amounts and a text whose first word is ASCII.  The answer is the
    profit text exactly when the cleaned text is a date that [strptime]
    accepts, not after today, with a record; the profit it reports is then
    the revenue plus the tips of the record.  The answer that there is no
    profit data is never given. *)
Theorem process_profit_date_database (today : Py.date) (db : database)
  (text : string) :
  is_ascii (clean_user_input text) = true ->
  process_profit_date today (Database.check_shift_exists db)
    (fun d => option_map Finite (Database.get_profit db d)) text
  <> NoProfitData
  /\ forall clean_date p e,
      process_profit_date today (Database.check_shift_exists db)
        (fun d => option_map Finite (Database.get_profit db d)) text
      = ProfitText clean_date p e
      <-> clean_date = clean_user_input text
          /\ e = select_encouragement p
          /\ exists d r,
              strptime_dmY clean_date = Some d
              /\ date_gtb d today = false
              /\ fetch_by_date db clean_date = Some r
              /\ p = Finite (or_zero (revenue r) + or_zero (tips r)).
Proof.
  intros _.
  unfold process_profit_date, Database.check_shift_exists, Database.get_profit.
  destruct (strptime_dmY (clean_user_input text)) as [d|] eqn:Ed.
  - destruct (date_gtb d today) eqn:Egt.
    + split; [discriminate|]. intros cd p e. split; [discriminate|].
      intros (-> & _ & d' & r & Hd' & Hgt & _). congruence.
    + destruct (fetch_by_date db (clean_user_input text)) as [r|] eqn:Er;
        cbn [negb option_map].
      * split; [discriminate|]. intros cd p e. split.
        -- intros H. inversion H; subst. split; [reflexivity|].
           split; [reflexivity|]. exists d, r. auto.
        -- intros (-> & -> & d' & r' & _ & _ & Hr' & ->).
           rewrite Er in Hr'. now inversion Hr'.
      * split; [discriminate|]. intros cd p e. split; [discriminate|].
        intros (-> & _ & d' & r & _ & _ & Hr & _). congruence.
  - split; [discriminate|]. intros cd p e. split; [discriminate|].
    intros (-> & _ & d' & r & Hd' & _). congruence.
Qed.

Lemma process_profit_date_database_witness :
  process_profit_date {| year := 2024; month := 3; day := 31 |}
    (Database.check_shift_exists Samples.db_march)
    (fun d => option_map Finite (Database.get_profit Samples.db_march d))
    "01.03.2024 12:45"
  = ProfitText "01.03.2024" (Finite 1500) DontBeUpset.
Proof.
  apply (proj2 (process_profit_date_database
                  {| year := 2024; month := 3; day := 31 |}
                  Samples.db_march "01.03.2024 12:45" eq_refl)).
  split; [reflexivity|]. split; [reflexivity|].
  exists {| year := 2024; month := 3; day := 1 |}.
  eexists. split; [reflexivity|]. split; [reflexivity|].
  split; reflexivity.
Defined.

(** A failed [update_value] returns the table it was given. *)
Lemma update_value_failed_unchanged now db date_msg field value :
  fst (Database.update_value now db date_msg field value) = false ->
  snd (Database.update_value now db date_msg field value) = db.
Proof.
  unfold Database.update_value.
  destruct (dict_get field_mapping (lower field)) as [col|]; [|reflexivity].
  unfold execute_update.
  destruct (is_numeric col).
  - destruct (float value); [|reflexivity].
    destruct (Nat.eqb _ 0); [reflexivity | discriminate].
  - destruct (Nat.eqb _ 0); [reflexivity | discriminate].
Qed.

(** X16.  The edit conversation on the SQLite backend, for a date that has a
    record, one of the four field names and a value that, when the field is
    the revenue or the tips, is ASCII text and none of the words [inf],
    [infinity] and [nan].  The three handlers end in one call of
    [update_value] with the cleaned date, the field name in lower case and
    the cleaned value, in a cleared context, and answer by its result; a
    failed call leaves the store as it was.  A new start or end time is not
    checked: the call succeeds and the record then holds the word as it was
    typed.  A new revenue or tips value is stored exactly when [float] does
    not raise. *)
Theorem edit_flow_database (now : Z) (db : database) (c : FSMContext)
  (date_text field_text value_text : string) (r : shift_row) :
  fetch_by_date db (clean_user_input date_text) = Some r ->
  among ["чай"; "начало"; "конец"; "выручка"]
    (lower (clean_user_input field_text)) = true ->
  (lower (clean_user_input field_text) = "выручка"
   \/ lower (clean_user_input field_text) = "чай" ->
   is_ascii (clean_user_input value_text) = true
   /\ names_nonfinite (clean_user_input value_text) = false) ->
  process_edit_value database (Database.update_value now) db
    (fst (process_edit_field
            (fst (process_edit_date database Database.check_shift_exists
                    db c date_text))
            field_text))
    value_text
  = Some (snd (Database.update_value now db (clean_user_input date_text)
                 (lower (clean_user_input field_text))
                 (clean_user_input value_text)),
          clear,
          if fst (Database.update_value now db (clean_user_input date_text)
                    (lower (clean_user_input field_text))
                    (clean_user_input value_text))
          then Edited (lower (clean_user_input field_text))
                 (clean_user_input value_text) (clean_user_input date_text)
          else EditFailed)
  /\ (fst (Database.update_value now db (clean_user_input date_text)
             (lower (clean_user_input field_text))
             (clean_user_input value_text)) = false ->
      snd (Database.update_value now db (clean_user_input date_text)
             (lower (clean_user_input field_text))
             (clean_user_input value_text)) = db)
  /\ (lower (clean_user_input field_text) = "начало" ->
      exists r',
        fst (Database.update_value now db (clean_user_input date_text)
               (lower (clean_user_input field_text))
               (clean_user_input value_text)) = true
        /\ fetch_by_date
             (snd (Database.update_value now db (clean_user_input date_text)
                     (lower (clean_user_input field_text))
                     (clean_user_input value_text)))
             (clean_user_input date_text) = Some r'
        /\ start_time r' = clean_user_input value_text)
  /\ (lower (clean_user_input field_text) = "конец" ->
      exists r',
        fst (Database.update_value now db (clean_user_input date_text)
               (lower (clean_user_input field_text))
               (clean_user_input value_text)) = true
        /\ fetch_by_date
             (snd (Database.update_value now db (clean_user_input date_text)
                     (lower (clean_user_input field_text))
                     (clean_user_input value_text)))
             (clean_user_input date_text) = Some r'
        /\ end_time r' = clean_user_input value_text)
  /\ (lower (clean_user_input field_text) = "выручка"
      \/ lower (clean_user_input field_text) = "чай" ->
      (fst (Database.update_value now db (clean_user_input date_text)
              (lower (clean_user_input field_text))
              (clean_user_input value_text)) = true
       <-> float_raises (clean_user_input value_text) = false)).
Proof.
  intros Hr Hfield Hdom.
  set (cd := clean_user_input date_text) in *.
  set (f := lower (clean_user_input field_text)) in *.
  set (v := clean_user_input value_text).
  split; [|split; [|split; [|split]]].
  - unfold process_edit_date, process_known_date, process_edit_field.
    fold cd. rewrite (check_shift_exists_found _ _ _ Hr). cbn [negb fst].
    fold f. rewrite Hfield. cbn [negb fst].
    unfold process_edit_value. cbn [set_state data].
    rewrite dict_get_update_data_other by discriminate.
    cbn [set_state data]. rewrite !dict_get_update_data_same. fold v.
    now destruct (Database.update_value now db cd f v).
  - apply update_value_failed_unchanged.
  - intros Ef. rewrite Ef in *.
    destruct (update_value_found now db cd "начало" v r start_time_col 0
                Hr eq_refl) as (Hok & Hrow & _); [discriminate|].
    eexists. split; [exact Hok|]. split; [exact Hrow | reflexivity].
  - intros Ef. rewrite Ef in *.
    destruct (update_value_found now db cd "конец" v r end_time_col 0
                Hr eq_refl) as (Hok & Hrow & _); [discriminate|].
    eexists. split; [exact Hok|]. split; [exact Hrow | reflexivity].
  - intros Ef.
    assert (Hcol : exists col,
      dict_get field_mapping (lower f) = Some col /\ is_numeric col = true).
    { destruct Ef as [-> | ->];
        [exists revenue_col | exists tips_col]; split; reflexivity. }
    destruct Hcol as (col & Hcol & Hnum).
    destruct (Hdom Ef) as [Ha Hw].
    rewrite (float_raises_decided v Ha Hw).
    destruct (float v) as [q|] eqn:Eq.
    + destruct (update_value_found now db cd f v r col q Hr Hcol
                  (fun _ => Eq)) as (Hok & _).
      split; [discriminate | intros _; exact Hok].
    + split; [|congruence].
      unfold Database.update_value. rewrite Hcol, Hnum, Eq. discriminate.
Qed.

Lemma edit_flow_database_witness :
  exists r',
    fst (Database.update_value 600 Samples.db_march "01.03.2024"
           "начало" "soon") = true
    /\ fetch_by_date
         (snd (Database.update_value 600 Samples.db_march "01.03.2024"
                 "начало" "soon")) "01.03.2024" = Some r'
    /\ start_time r' = "soon".
Proof.
  assert (Er : fetch_by_date Samples.db_march (clean_user_input "01.03.2024")
               = Some {| id := 1; date := "01.03.2024";
                         start_time := "22:00"; end_time := "06:00";
                         revenue := Some 1000; tips := Some 500;
                         created_at := 100; updated_at := 102 |})
    by (vm_compute; reflexivity).
  assert (Ea : among ["чай"; "начало"; "конец"; "выручка"]
                 (lower (clean_user_input "Начало")) = true)
    by (vm_compute; reflexivity).
  assert (Hd : lower (clean_user_input "Начало") = "выручка"
               \/ lower (clean_user_input "Начало") = "чай" ->
               is_ascii (clean_user_input "soon") = true
               /\ names_nonfinite (clean_user_input "soon") = false)
    by (intros _; split; reflexivity).
  destruct (edit_flow_database 600 Samples.db_march clear
              "01.03.2024" "Начало" "soon" _ Er Ea Hd)
    as (_ & _ & Hstart & _).
  assert (El : lower (clean_user_input "Начало") = "начало")
    by (vm_compute; reflexivity).
  destruct (Hstart El) as (r' & Hok & Hrow & Hst).
  rewrite El in Hok, Hrow.
  exists r'. split; [exact Hok|]. split; [exact Hrow | exact Hst].
Defined.

(* ================================================================== *)
(** * The spreadsheet backend: the spelling of a date *)
(* ================================================================== *)

Local Open Scope Z_scope.

Lemma nat_of_digit_char (n : Z) :
  Z.of_nat (nat_of_ascii (digit_char n)) = 48 + n mod 10.
Proof.
  unfold digit_char.
  pose proof (Z.mod_pos_bound n 10 ltac:(lia)) as Hm.
  rewrite nat_ascii_embedding by lia. lia.
Qed.

Lemma is_digit_digit_char (n : Z) : is_digit (digit_char n) = true.
Proof.
  unfold is_digit. rewrite nat_of_digit_char.
  pose proof (Z.mod_pos_bound n 10 ltac:(lia)) as Hm.
  apply andb_true_iff. split; apply Z.leb_le; lia.
Qed.

Lemma digit_val_digit_char (n : Z) : digit_val (digit_char n) = n mod 10.
Proof. unfold digit_val. rewrite nat_of_digit_char. lia. Qed.

Lemma read_year_four_digits (y : Z) (r : string) :
  0 <= y <= 9999 ->
  read_year (String (digit_char (y / 1000)) (String (digit_char (y / 100))
               (String (digit_char (y / 10)) (String (digit_char y) r))))
  = Some (y, r).
Proof.
  intros Hy. unfold read_year.
  rewrite !is_digit_digit_char, !digit_val_digit_char. cbn [andb].
  do 2 f_equal. f_equal.
  Z.to_euclidean_division_equations. lia.
Qed.

Lemma read_day_two_digits (n : Z) (r : string) :
  1 <= n <= 31 ->
  read_day (String (digit_char (n / 10)) (String (digit_char n) r))
  = Some (n, r).
Proof.
  intros Hn.
  assert (Hk : exists k, (k < 31)%nat /\ n = 1 + Z.of_nat k).
  { exists (Z.to_nat (n - 1)). lia. }
  destruct Hk as (k & Hk & ->).
  do 31 (destruct k as [|k]; [reflexivity|]). lia.
Qed.

Lemma read_month_two_digits (n : Z) (r : string) :
  1 <= n <= 12 ->
  read_month (String (digit_char (n / 10)) (String (digit_char n) r))
  = Some (n, r).
Proof.
  intros Hn.
  assert (Hk : exists k, (k < 12)%nat /\ n = 1 + Z.of_nat k).
  { exists (Z.to_nat (n - 1)). lia. }
  destruct Hk as (k & Hk & ->).
  do 12 (destruct k as [|k]; [reflexivity|]). lia.
Qed.

Lemma read_day_range s n r : read_day s = Some (n, r) -> 1 <= n <= 31.
Proof.
  destruct s as [|a [|b s']]; lazy beta iota delta [read_day]; intros H.
  - discriminate.
  - destruct (in_range 49 57 a) eqn:Ea; digit_facts; lia.
  - destruct (_ || _) eqn:E2 in H.
    + digit_facts; lia.
    + destruct (in_range 49 57 a) eqn:Ea; [digit_facts; lia|].
      destruct (_ && _) eqn:E3 in H; digit_facts; lia.
Qed.

Lemma read_month_range s n r : read_month s = Some (n, r) -> 1 <= n <= 12.
Proof.
  destruct s as [|a [|b s']]; lazy beta iota delta [read_month]; intros H.
  - discriminate.
  - destruct (in_range 49 57 a) eqn:Ea; digit_facts; lia.
  - destruct (_ || _) eqn:E2 in H.
    + digit_facts; lia.
    + destruct (in_range 49 57 a) eqn:Ea; digit_facts; lia.
Qed.

Lemma read_year_range s n r : read_year s = Some (n, r) -> 0 <= n <= 9999.
Proof.
  destruct s as [|a [|b [|c [|d s']]]]; lazy beta iota delta [read_year];
    intros H; try discriminate.
  destruct (_ && _) eqn:E in H; digit_facts; lia.
Qed.

(** A parsed date is a date of the calendar. *)
Lemma strptime_dmY_range s d :
  strptime_dmY s = Some d ->
  1 <= day d <= 31 /\ 1 <= month d <= 12 /\ 1 <= year d <= 9999
  /\ day d <= days_in_month (year d) (month d).
Proof.
  unfold strptime_dmY.
  destruct (read_day s) as [[dd r]|] eqn:Ed; [|discriminate].
  destruct r as [|c r]; [discriminate|].
  destruct (Ascii.eqb_spec c ".") as [->|Hc];
    [|destruct c as [[] [] [] [] [] [] [] []]; try discriminate; congruence].
  destruct (read_month r) as [[mm r1]|] eqn:Em; [|discriminate].
  destruct r1 as [|c r1]; [discriminate|].
  destruct (Ascii.eqb_spec c ".") as [->|Hc];
    [|destruct c as [[] [] [] [] [] [] [] []]; try discriminate; congruence].
  destruct (read_year r1) as [[yy r2]|] eqn:Ey; [|discriminate].
  destruct r2; [|discriminate].
  destruct ((1 <=? yy) && (dd <=? days_in_month yy mm)) eqn:Ev; [|discriminate].
  intros H. inversion H; subst; simpl.
  apply andb_true_iff in Ev. destruct Ev as [Ev1 Ev2].
  apply Z.leb_le in Ev1, Ev2.
  apply read_day_range in Ed. apply read_month_range in Em.
  apply read_year_range in Ey. lia.
Qed.

(** The date that [strftime] writes is read back by [strptime] as the same
    date, for the years that are written with four digits. *)
Lemma strptime_strftime (d : Py.date) :
  1 <= day d <= 31 -> 1 <= month d <= 12 -> 0 <= year d <= 9999 ->
  1 <= year d -> day d <= days_in_month (year d) (month d) ->
  strptime_dmY (strftime_dmY d) = Some d.
Proof.
  intros Hd Hm Hy Hy1 Hdim. destruct d as [y m dd]. simpl in *.
  unfold strptime_dmY, strftime_dmY, two_digits, four_digits.
  cbn [year month day String.append].
  rewrite read_day_two_digits by exact Hd.
  rewrite read_month_two_digits by exact Hm.
  rewrite read_year_four_digits by exact Hy.
  replace (1 <=? y) with true by (symmetry; apply Z.leb_le; lia).
  replace (dd <=? days_in_month y m) with true
    by (symmetry; apply Z.leb_le; lia).
  reflexivity.
Qed.

(** X17.  The spreadsheet backend addresses a record by the date, not by
    its spelling.  For a text that [strptime] reads as the date [d], of a
    year from 1000 on, the key that the backend writes and looks up,
    [d] in the form DD.MM.YYYY, is read back as [d]; and every operation
    gives for the text what it gives for that key. *)
Theorem sheet_date_spelling (m : manager) (date_msg : string) (d : Py.date) :
  strptime_dmY date_msg = Some d ->
  1000 <= year d ->
  strptime_dmY (strftime_dmY d) = Some d
  /\ Sheets.check_shift_exists m (strftime_dmY d)
     = Sheets.check_shift_exists m date_msg
  /\ (forall start end_,
         Sheets.add_shift m (strftime_dmY d) start end_
         = Sheets.add_shift m date_msg start end_)
  /\ (forall field value,
         Sheets.update_value m (strftime_dmY d) field value
         = Sheets.update_value m date_msg field value)
  /\ Sheets.get_profit m (strftime_dmY d) = Sheets.get_profit m date_msg.
Proof.
  intros Hd Hy.
  assert (Hback : strptime_dmY (strftime_dmY d) = Some d).
  { pose proof (strptime_dmY_range _ _ Hd) as (H1 & H2 & H3 & H4).
    apply strptime_strftime; lia. }
  split; [exact Hback|].
  unfold Sheets.check_shift_exists, Sheets.add_shift, Sheets.update_value,
    Sheets.get_profit.
  rewrite Hback, Hd. repeat split.
Qed.

Lemma sheet_date_spelling_witness :
  strftime_dmY {| year := 2024; month := 3; day := 1 |} = "01.03.2024"
  /\ Sheets.check_shift_exists Samples.sheet_march "01.03.2024"
     = Sheets.check_shift_exists Samples.sheet_march "1.3.2024".
Proof.
  split; [reflexivity|].
  destruct (sheet_date_spelling Samples.sheet_march "1.3.2024"
              {| year := 2024; month := 3; day := 1 |} eq_refl)
    as (_ & H & _); [simpl; lia|].
  exact H.
Defined.

Local Open Scope Q_scope.

Lemma sheet_add_shift_keeps_amounts_witness :
  cell (worksheet (snd (Sheets.add_shift Samples.sheet_march
                          "1.3.2024" "10:00" "18:00"))) 2 4
  = cell (worksheet Samples.sheet_march) 2 4
  /\ cell (worksheet (snd (Sheets.add_shift Samples.sheet_march
                             "1.3.2024" "10:00" "18:00"))) 2 5
     = cell (worksheet Samples.sheet_march) 2 5.
Proof.
  assert (Ef : find (worksheet Samples.sheet_march)
                 (strftime_dmY {| year := 2024; month := 3; day := 1 |})
               = Some (2%nat, 1%nat))
    by (vm_compute; reflexivity).
  destruct (sheet_add_shift_keeps_amounts Samples.sheet_march
              "1.3.2024" "10:00" "18:00"
              {| year := 2024; month := 3; day := 1 |} 2 1
              eq_refl eq_refl eq_refl Ef) as (_ & H4 & H5).
  split; [exact H4 | exact H5].
Defined.
